(** * golang-lambda: the user record service and its request handlers

    A shallow embedding of [pkg/user] (FetchUser, FetchAllUsers, CreateUser,
    UpdateUser, DeleteUser) and of [pkg/handlers] (GetUser, CreateUser,
    UpdateUser, DeleteUser, UnhandledMethod), together with the part of the
    AWS SDK and of the Go runtime these functions go through.

    Conventions of the embedding:
    - a Go pointer [*T] is an [option T]; dereferencing [nil] panics;
    - a Go [error] is its message ([err.Error()]); the [nil] error is [None];
    - a Go function returning a pointer and an error returns a pair of options;
    - a Go [map[string]T] is a [gmap string T];
    - calls through the [dynamodbiface.DynamoDBAPI] interface thread the state
      of the client and are recorded, in order, in a call log. *)

From Stdlib Require Import ZArith Ascii String.
From stdpp Require Import gmap strings list fin_maps.

Local Open Scope string_scope.

#[local] Set Warnings "-register-all".

(** ** Go runtime *)

Definition error := string.

(** [errors.New(text)] *)
Definition errors_New (text : string) : error := text.

(** [len(s)] on a Go string: the number of bytes. *)
Definition len (s : string) : nat := String.length s.

(** [p == nil] *)
Definition is_nil {A : Type} (p : option A) : bool :=
  match p with
  | None => true
  | Some _ => false
  end.

(** ** The AWS SDK types the service uses *)

Module dynamodb.

(** [dynamodb.AttributeValue]: the SDK struct has one optional field per
    DynamoDB data type, exactly one of which is set in a well-formed value;
    the constructor names are the field names. A [nil] pointer to an
    attribute value decodes like [NULL]. *)
Inductive AttributeValue : Type :=
| B (b : list Byte.byte)
| BOOL (b : bool)
| BS (bs : list (list Byte.byte))
| L (l : list AttributeValue)
| M (m : gmap string AttributeValue)
| N (n : string)
| NS (ns : list string)
| NULL (b : bool)
| S (s : string)
| SS (ss : list string).

Record GetItemInput : Type := mkGetItemInput {
  GetItemInput_Key : gmap string AttributeValue;
  GetItemInput_TableName : string
}.

Record GetItemOutput : Type := mkGetItemOutput {
  GetItemOutput_Item : gmap string AttributeValue
}.

Record PutItemInput : Type := mkPutItemInput {
  PutItemInput_Item : gmap string AttributeValue;
  PutItemInput_TableName : string
}.

Record PutItemOutput : Type := mkPutItemOutput { }.

Record ScanInput : Type := mkScanInput {
  ScanInput_TableName : string
}.

Record ScanOutput : Type := mkScanOutput {
  ScanOutput_Items : list (gmap string AttributeValue)
}.

Record DeleteItemInput : Type := mkDeleteItemInput {
  DeleteItemInput_Key : gmap string AttributeValue;
  DeleteItemInput_TableName : string
}.

Record DeleteItemOutput : Type := mkDeleteItemOutput { }.

End dynamodb.

Import dynamodb.

(** ** The client interface

    [dynamodbiface.DynamoDBAPI], restricted to the four methods the service
    calls. [St] is the state behind the interface value (the table of a real
    client, the configured answers of a test double); every method may read
    and change it. Each method returns the SDK's pair (output pointer, error),
    and nothing forces exactly one of the two to be [nil]. A value of this
    type is a client that is not nil and whose calls return: a call that
    itself panics, as every call on a nil interface value does, is not
    described. *)

Module dynamodbiface.

Record DynamoDBAPI (St : Type) : Type := mkDynamoDBAPI {
  GetItem : GetItemInput -> St -> (option GetItemOutput * option error) * St;
  PutItem : PutItemInput -> St -> (option PutItemOutput * option error) * St;
  Scan : ScanInput -> St -> (option ScanOutput * option error) * St;
  DeleteItem : DeleteItemInput -> St -> (option DeleteItemOutput * option error) * St
}.

Arguments GetItem {St} _ _ _.
Arguments PutItem {St} _ _ _.
Arguments Scan {St} _ _ _.
Arguments DeleteItem {St} _ _ _.

End dynamodbiface.

Import dynamodbiface.

(** ** Computations: client state, call log, panics *)

Inductive call : Type :=
| CallGetItem (input : GetItemInput)
| CallPutItem (input : PutItemInput)
| CallScan (input : ScanInput)
| CallDeleteItem (input : DeleteItemInput).

Inductive res (A : Type) : Type :=
| Val (a : A)
| Panic.

Arguments Val {A} a.
Arguments Panic {A}.

Record world (St : Type) : Type := World {
  client : St;
  calls : list call
}.

Arguments World {St} _ _.
Arguments client {St} _.
Arguments calls {St} _.

Definition Go (St A : Type) : Type := world St -> res A * world St.

Definition ret {St A : Type} (a : A) : Go St A := fun w => (Val a, w).

Definition panic {St A : Type} : Go St A := fun w => (Panic, w).

Definition bind {St A B : Type} (c : Go St A) (k : A -> Go St B) : Go St B :=
  fun w =>
    match c w with
    | (Val a, w') => k a w'
    | (Panic, w') => (Panic, w')
    end.

Declare Scope go_scope.
Delimit Scope go_scope with go.
Bind Scope go_scope with Go.

Notation "x <- c1 ; c2" := (bind c1 (fun x => c2))
  (at level 20, c1 at level 100, c2 at level 200, only parsing) : go_scope.
Notation "' pat <- c1 ; c2" := (bind c1 (fun x => match x with pat => c2 end))
  (at level 20, pat pattern, c1 at level 100, c2 at level 200, only parsing) : go_scope.

Local Open Scope go_scope.

(** [*p], and [p.f] through a pointer: a nil pointer dereference panics. *)
Definition deref {St A : Type} (p : option A) : Go St A :=
  match p with
  | Some a => ret a
  | None => panic
  end.

(** Go's [a && b]: [b] is evaluated only when [a] is true. *)
Definition go_and {St : Type} (a b : Go St bool) : Go St bool :=
  x <- a; if x then b else ret false.

(** The four interface calls, logged. *)
Section Calls.
Context {St : Type} (dynaClient : DynamoDBAPI St).

Definition call_GetItem (input : GetItemInput)
  : Go St (option GetItemOutput * option error) :=
  fun w =>
    let '(r, st) := GetItem dynaClient input (client w) in
    (Val r, World st (calls w ++ [CallGetItem input])).

Definition call_PutItem (input : PutItemInput)
  : Go St (option PutItemOutput * option error) :=
  fun w =>
    let '(r, st) := PutItem dynaClient input (client w) in
    (Val r, World st (calls w ++ [CallPutItem input])).

Definition call_Scan (input : ScanInput)
  : Go St (option ScanOutput * option error) :=
  fun w =>
    let '(r, st) := Scan dynaClient input (client w) in
    (Val r, World st (calls w ++ [CallScan input])).

Definition call_DeleteItem (input : DeleteItemInput)
  : Go St (option DeleteItemOutput * option error) :=
  fun w =>
    let '(r, st) := DeleteItem dynaClient input (client w) in
    (Val r, World st (calls w ++ [CallDeleteItem input])).
End Calls.

(** ** [events.APIGatewayProxyRequest] *)

Module events.

Record APIGatewayProxyRequest : Type := mkRequest {
  Body : string;
  QueryStringParameters : gmap string string;
  PathParameters : gmap string string
}.

End events.

(** [m[key]] on a [map[string]string]: the zero value when the key is absent. *)
Definition map_index (m : gmap string string) (key : string) : string :=
  default "" (m !! key).

(** ** The record *)

(** [type User struct], with the attribute names of its [json] tags
    (["email"], ["firstName"], ["lastName"]). *)
Record User : Type := mkUser {
  Email : string;
  FirstName : string;
  LastName : string
}.

(** [new(User)], [var u User]: the zero value. *)
Definition new_User : User := mkUser "" "" "".

(** ** The SDK's attribute marshaller, at type [User]

    [dynamodbattribute] works by reflection on any Go value; the service
    uses it on [User] and on [[]User] only, and these are its equations
    there. The attribute names are those of the [json] tags; a name of
    an item is matched to a field exactly or, failing that, up to letter
    case. The decoder visits the attributes of an item in the order of
    Go's [range] over the map, which is unspecified; [map_to_list] stands
    for it here. The order shows in the result only when two names of one
    item match the same field. *)

Module dynamodbattribute.

Definition UnmarshalTypeError (value : string) : error :=
  "cannot unmarshal " ++ value ++ " into Go value of type string".

(** Decoding one attribute value into a string field holding [v]. The
    decoder dispatches on the field of the attribute value that is set:
    NULL zeroes the field, a string or a number is stored as it is, an
    empty collection is skipped, every other type is a type error. *)
Definition decode (av : AttributeValue) (v : string) : string * option error :=
  match av with
  | NULL _ => ("", None)
  | S s => (s, None)
  | N n => (n, None)
  | BOOL _ => (v, Some (UnmarshalTypeError "bool"))
  | B b => if is_nil (head b) then (v, None) else (v, Some (UnmarshalTypeError "binary"))
  | BS bs => if is_nil (head bs) then (v, None) else (v, Some (UnmarshalTypeError "binary set"))
  | L l => if is_nil (head l) then (v, None) else (v, Some (UnmarshalTypeError "list"))
  | M m => if Nat.eqb (size m) 0 then (v, None) else (v, Some (UnmarshalTypeError "map"))
  | NS ns => if is_nil (head ns) then (v, None) else (v, Some (UnmarshalTypeError "number set"))
  | SS ss => if is_nil (head ss) then (v, None) else (v, Some (UnmarshalTypeError "string set"))
  end.

(** The fields of [User], in the order of the struct, with the attribute
    names of their tags. *)
Inductive field : Type :=
| field_Email
| field_FirstName
| field_LastName.

Definition fields : list field := [field_Email; field_FirstName; field_LastName].

Definition field_Name (f : field) : string :=
  match f with
  | field_Email => "email"
  | field_FirstName => "firstName"
  | field_LastName => "lastName"
  end.

Definition field_get (f : field) (u : User) : string :=
  match f with
  | field_Email => Email u
  | field_FirstName => FirstName u
  | field_LastName => LastName u
  end.

Definition field_set (f : field) (v : string) (u : User) : User :=
  match f with
  | field_Email => mkUser v (FirstName u) (LastName u)
  | field_FirstName => mkUser (Email u) v (LastName u)
  | field_LastName => mkUser (Email u) (FirstName u) v
  end.

Definition is_upper (c : ascii) : bool :=
  Nat.leb 65 (nat_of_ascii c) && Nat.leb (nat_of_ascii c) 90.

Definition to_lower (c : ascii) : ascii :=
  if is_upper c then ascii_of_nat (nat_of_ascii c + 32) else c.

(** Two bytes that are equal, or an ASCII capital and its small letter. *)
Definition ascii_fold (c d : ascii) : bool :=
  Ascii.eqb c d
  || (is_upper c && Ascii.eqb (to_lower c) d)
  || (is_upper d && Ascii.eqb (to_lower d) c).

(** [strings.EqualFold(s, t)] for [s] made of ASCII characters, [t] any
    UTF-8 text: besides its own two cases, the letter s of [s] matches the
    long s (U+017F, bytes C5 BF) and the letter k the Kelvin sign (U+212A,
    bytes E2 84 AA), the only characters outside ASCII that fold to an
    ASCII letter. *)
Fixpoint EqualFold (s t : string) : bool :=
  match s with
  | EmptyString =>
    match t with
    | EmptyString => true
    | String _ _ => false
    end
  | String c s' =>
    match t with
    | EmptyString => false
    | String d t' =>
      if ascii_fold c d then EqualFold s' t'
      else if Ascii.eqb (to_lower c) "s" then
        match t with
        | String "197" (String "191" t'') => EqualFold s' t''
        | _ => false
        end
      else if Ascii.eqb (to_lower c) "k" then
        match t with
        | String "226" (String "132" (String "170" t'')) => EqualFold s' t''
        | _ => false
        end
      else false
    end
  end.

(** [fieldByName(fields, name)]: the field whose name is [name], or else
    the first field whose name equals [name] up to case. *)
Definition fieldByName (name : string) : option field :=
  match find (fun f => String.eqb (field_Name f) name) fields with
  | Some f => Some f
  | None => find (fun f => EqualFold (field_Name f) name) fields
  end.

(** The decoder's loop over the attributes of an item: an attribute whose
    name matches a field is decoded into it, any other is skipped; the
    first attribute that fails to decode ends the decoding. *)
Fixpoint decodeMap (entries : list (string * AttributeValue)) (out : User)
  : User * option error :=
  match entries with
  | [] => (out, None)
  | (name, av) :: rest =>
    match fieldByName name with
    | Some f =>
      let '(v, err) := decode av (field_get f out) in
      match err with
      | Some e => (out, Some e)
      | None => decodeMap rest (field_set f v out)
      end
    | None => decodeMap rest out
    end
  end.

(** [UnmarshalMap(m, out)] with [out : *User]: the updated record and the
    error. *)
Definition UnmarshalMap (m : gmap string AttributeValue) (out : User)
  : User * option error :=
  decodeMap (map_to_list m) out.

(** The elements of a list of maps, decoded in order into fresh records;
    the first element that fails to decode ends the decoding. *)
Fixpoint decodeList (l : list (gmap string AttributeValue)) : list User * option error :=
  match l with
  | [] => ([], None)
  | m :: l' =>
    let '(u, err) := UnmarshalMap m new_User in
    match err with
    | Some e => ([u], Some e)
    | None => let '(us, err') := decodeList l' in (u :: us, err')
    end
  end.

(** [UnmarshalListOfMaps(l, out)] with [out] pointing to a [[]User]: an
    empty [l] leaves [out] as it is. *)
Definition UnmarshalListOfMaps (l : list (gmap string AttributeValue)) (out : list User)
  : list User * option error :=
  if Nat.eqb (length l) 0 then (out, None) else decodeList l.

(** Encoding a string field: the empty string is written as NULL. *)
Definition encode (s : string) : AttributeValue :=
  if Nat.eqb (len s) 0 then NULL true else S s.

(** [MarshalMap(in)] with [in : User]. *)
Definition MarshalMap (u : User) : gmap string AttributeValue * option error :=
  ({[ "email" := encode (Email u);
      "firstName" := encode (FirstName u);
      "lastName" := encode (LastName u) ]}, None).

End dynamodbattribute.

(** ** Package [user] *)

Module user.

Definition ErrorCouldNotDynamoPutItem : string := "could not update record".
Definition ErrorCouldNotMarshalItem : string := "fail to marshal record".
Definition ErrorFailedToDeleteRecord : string := "failed to delete record".
Definition ErrorFailedToFetchRecord : string := "failed to fetch record".
Definition ErrorFailedToUnmarshalRecord : string := "failed to unmarshal record".
Definition ErrorInvalidEmail : string := "invalid email".
Definition ErrorInvalidUserData : string := "invalid user data".
Definition ErrorUserAlreadyExists : string := "user already exists".

Section Service.

(** [json.Unmarshal([]byte(data), &u)] at type [User]: the record after
    the call and the error. *)
Variable json_Unmarshal : string -> User -> User * option error.

(** [validators.IsEmailValid], of package [pkg/validators]. *)
Variable IsEmailValid : string -> bool.

Context {St : Type}.

Definition FetchUser (email tableName : string) (dynaClient : DynamoDBAPI St)
  : Go St (option User * option error) :=
  let input := mkGetItemInput {[ "email" := S email ]} tableName in
  '(result, err) <- call_GetItem dynaClient input;
  if negb (is_nil err) then ret (None, Some (errors_New ErrorFailedToFetchRecord)) else
  let item := new_User in
  result_ <- deref result;
  let '(item, err) := dynamodbattribute.UnmarshalMap (GetItemOutput_Item result_) item in
  if negb (is_nil err) then ret (None, Some (errors_New ErrorFailedToUnmarshalRecord)) else
  ret (Some item, None).

Definition FetchAllUsers (tableName : string) (dynaClient : DynamoDBAPI St)
  : Go St (option (list User) * option error) :=
  let input := mkScanInput tableName in
  '(result, err) <- call_Scan dynaClient input;
  if negb (is_nil err) then ret (None, Some (errors_New ErrorFailedToFetchRecord)) else
  let item : list User := [] in
  result_ <- deref result;
  let '(item, err) := dynamodbattribute.UnmarshalListOfMaps (ScanOutput_Items result_) item in
  if negb (is_nil err) then ret (None, Some (errors_New ErrorFailedToUnmarshalRecord)) else
  ret (Some item, None).

(** [existingUser != nil && len(existingUser.Email) != 0] *)
Definition create_guard (existingUser : option User) : Go St bool :=
  go_and (ret (negb (is_nil existingUser)))
         (existingUser_ <- deref existingUser;
          ret (negb (Nat.eqb (len (Email existingUser_)) 0))).

(** [existingUser == nil && len(existingUser.Email) == 0] *)
Definition update_guard (existingUser : option User) : Go St bool :=
  go_and (ret (is_nil existingUser))
         (existingUser_ <- deref existingUser;
          ret (Nat.eqb (len (Email existingUser_)) 0)).

Definition CreateUser (req : events.APIGatewayProxyRequest) (tableName : string)
    (dynaClient : DynamoDBAPI St) : Go St (option User * option error) :=
  let '(u, err) := json_Unmarshal (events.Body req) new_User in
  if negb (is_nil err) then ret (None, Some (errors_New ErrorInvalidUserData)) else
  if negb (IsEmailValid (Email u)) then ret (None, Some (errors_New ErrorInvalidEmail)) else
  '(existingUser, err) <- FetchUser (Email u) tableName dynaClient;
  if negb (is_nil err) then ret (None, Some (errors_New ErrorFailedToFetchRecord)) else
  exists_ <- create_guard existingUser;
  if exists_ then ret (None, Some (errors_New ErrorUserAlreadyExists)) else
  let '(av, err) := dynamodbattribute.MarshalMap u in
  if negb (is_nil err) then ret (None, Some (errors_New ErrorCouldNotMarshalItem)) else
  let input := mkPutItemInput av tableName in
  '(_, err) <- call_PutItem dynaClient input;
  if negb (is_nil err) then ret (None, Some (errors_New ErrorCouldNotDynamoPutItem)) else
  ret (Some u, None).

Definition UpdateUser (req : events.APIGatewayProxyRequest) (tableName : string)
    (dynaClient : DynamoDBAPI St) : Go St (option User * option error) :=
  let '(u, err) := json_Unmarshal (events.Body req) new_User in
  if negb (is_nil err) then ret (None, Some (errors_New ErrorInvalidUserData)) else
  '(existingUser, err) <- FetchUser (Email u) tableName dynaClient;
  if negb (is_nil err) then ret (None, err) else
  missing <- update_guard existingUser;
  if missing then ret (None, Some (errors_New ErrorUserAlreadyExists)) else
  let '(av, err) := dynamodbattribute.MarshalMap u in
  if negb (is_nil err) then ret (None, Some (errors_New ErrorCouldNotMarshalItem)) else
  let input := mkPutItemInput av tableName in
  '(_, err) <- call_PutItem dynaClient input;
  if negb (is_nil err) then ret (None, Some (errors_New ErrorCouldNotDynamoPutItem)) else
  ret (Some u, None).

Definition DeleteUser (req : events.APIGatewayProxyRequest) (tableName : string)
    (dynaClient : DynamoDBAPI St) : Go St (option error) :=
  let email := map_index (events.QueryStringParameters req) "email" in
  let input := mkDeleteItemInput {[ "email" := S email ]} tableName in
  '(_, err) <- call_DeleteItem dynaClient input;
  if negb (is_nil err) then ret (Some (errors_New ErrorFailedToDeleteRecord)) else
  ret None.

End Service.

End user.

(** ** Package [handlers] *)

Module http.
Definition StatusOK : Z := 200.
Definition StatusCreated : Z := 201.
Definition StatusBadRequest : Z := 400.
Definition StatusMethodNotAllowed : Z := 405.
Definition StatusInternalServerError : Z := 500.
End http.

Module handlers.

Definition ErrorMethodNotAllowed : string := "Error Method Not Allowed".

Record ErrorBody : Type := mkErrorBody {
  ErrorMsg : option string
}.

(** The values the handlers pass as [body interface{}]. *)
Inductive payload : Type :=
| body_error (b : ErrorBody)
| body_user (u : option User)
| body_users (us : option (list User))
| body_nil
| body_string (s : string).

(** [events.APIGatewayProxyResponse]; it is declared in this module because
    its [Body] has the name of the request's. *)
Record APIGatewayProxyResponse : Type := mkResponse {
  StatusCode : Z;
  Headers : gmap string string;
  Body : string
}.

Section Handlers.

(** [apiResponse(status, body)], the response builder of this package,
    whose file is not among the sources. *)
Variable apiResponse : Z -> payload -> option APIGatewayProxyResponse * option error.

Variable json_Unmarshal : string -> User -> User * option error.
Variable IsEmailValid : string -> bool.

Context {St : Type}.

Definition GetUser (req : events.APIGatewayProxyRequest) (tableName : string)
    (dynaClient : DynamoDBAPI St)
  : Go St (option APIGatewayProxyResponse * option error) :=
  let email := map_index (events.QueryStringParameters req) "email" in
  if Nat.ltb 0 (len email) then
    '(result, err) <- user.FetchUser email tableName dynaClient;
    match err with
    | Some e => ret (apiResponse http.StatusInternalServerError (body_error (mkErrorBody (Some e))))
    | None => ret (apiResponse http.StatusOK (body_user result))
    end
  else
    '(result, err) <- user.FetchAllUsers tableName dynaClient;
    match err with
    | Some e => ret (apiResponse http.StatusInternalServerError (body_error (mkErrorBody (Some e))))
    | None => ret (apiResponse http.StatusOK (body_users result))
    end.

Definition CreateUser (req : events.APIGatewayProxyRequest) (tableName : string)
    (dynaClient : DynamoDBAPI St)
  : Go St (option APIGatewayProxyResponse * option error) :=
  '(newUser, err) <- user.CreateUser json_Unmarshal IsEmailValid req tableName dynaClient;
  match err with
  | Some e => ret (apiResponse http.StatusInternalServerError (body_error (mkErrorBody (Some e))))
  | None => ret (apiResponse http.StatusCreated (body_user newUser))
  end.

Definition UpdateUser (req : events.APIGatewayProxyRequest) (tableName : string)
    (dynaClient : DynamoDBAPI St)
  : Go St (option APIGatewayProxyResponse * option error) :=
  '(newUser, err) <- user.UpdateUser json_Unmarshal req tableName dynaClient;
  match err with
  | Some e => ret (apiResponse http.StatusInternalServerError (body_error (mkErrorBody (Some e))))
  | None => ret (apiResponse http.StatusOK (body_user newUser))
  end.

Definition DeleteUser (req : events.APIGatewayProxyRequest) (tableName : string)
    (dynaClient : DynamoDBAPI St)
  : Go St (option APIGatewayProxyResponse * option error) :=
  err <- user.DeleteUser req tableName dynaClient;
  match err with
  | Some e => ret (apiResponse http.StatusBadRequest (body_error (mkErrorBody (Some e))))
  | None => ret (apiResponse http.StatusOK body_nil)
  end.

Definition UnhandledMethod : option APIGatewayProxyResponse * option error :=
  apiResponse http.StatusMethodNotAllowed (body_string ErrorMethodNotAllowed).

End Handlers.

(** Modelled from the spec: [apiResponse], the response builder of package
    [handlers], whose file is not among the sources. It answers with the
    status it is given, a fixed header announcing JSON (read as
    [Application-Type] by handlers_test.go) and the body encoded as JSON by
    [json_Marshal], and it returns no error. *)
Definition apiResponse (json_Marshal : payload -> string) (status : Z) (body : payload)
  : option APIGatewayProxyResponse * option error :=
  (Some (mkResponse status {[ "Application-Type" := "application/json" ]} (json_Marshal body)),
   None).

End handlers.

(** ** The test double of user_test.go *)

Record mockDynamoDBClient : Type := mkMock {
  deleteErr : option error;
  fetchedUser : option GetItemOutput;
  fetchErr : option error;
  putErr : option error;
  scanRes : option ScanOutput;
  scanErr : option error
}.

Definition mockDynamoDBClient_API : DynamoDBAPI mockDynamoDBClient :=
  {| GetItem := fun _ m => ((fetchedUser m, fetchErr m), m);
     PutItem := fun _ m => ((None, putErr m), m);
     Scan := fun _ m => ((scanRes m, scanErr m), m);
     DeleteItem := fun _ m => ((None, deleteErr m), m) |}.

(** [&mockDynamoDBClient{}] *)
Definition mockDb : mockDynamoDBClient := mkMock None None None None None None.

(** Running a computation on a client in state [st], with an empty log. *)
Definition run {St A : Type} (c : Go St A) (st : St) : res A * world St :=
  c (World st []).

(** ** Instances of the two package-level collaborators

    The service is parametric in [json.Unmarshal] and in
    [validators.IsEmailValid]. The two definitions below instantiate them
    on the requests of the test suite. *)

Module fixtures.

Definition dquote : ascii := "034"%char.
Definition backslash : ascii := "092"%char.

Definition is_space (c : ascii) : bool :=
  Ascii.eqb c " " || Ascii.eqb c "009" || Ascii.eqb c "010" || Ascii.eqb c "013".

Fixpoint has_char (c : ascii) (s : string) : bool :=
  match s with
  | EmptyString => false
  | String c' s' => Ascii.eqb c c' || has_char c s'
  end.

Fixpoint has_space (s : string) : bool :=
  match s with
  | EmptyString => false
  | String c s' => is_space c || has_space s'
  end.

(** The text before and after the first [@]. *)
Fixpoint split_at (s : string) : option (string * string) :=
  match s with
  | EmptyString => None
  | String c s' =>
    if Ascii.eqb c "@" then Some (EmptyString, s')
    else match split_at s' with
         | Some (l, d) => Some (String c l, d)
         | None => None
         end
  end.

(** Modelled from the spec: [validators.IsEmailValid], whose package is
    not among the sources. Section 4.1: local-part@domain with at least
    one dot in the domain, no embedded whitespace. *)
Definition IsEmailValid (email : string) : bool :=
  match split_at email with
  | Some (local_part, domain) =>
    negb (Nat.eqb (len local_part) 0) && has_char "." domain
    && negb (has_char "@" domain) && negb (has_space email)
  | None => false
  end.

Fixpoint skip_space (s : string) : string :=
  match s with
  | String c s' => if is_space c then skip_space s' else s
  | EmptyString => s
  end.

(** A character a literal of the fragment may hold as it is: printable
    ASCII other than the quote and the backslash. *)
Definition is_plain (c : ascii) : bool :=
  Nat.leb 32 (nat_of_ascii c) && Nat.ltb (nat_of_ascii c) 127
  && negb (Ascii.eqb c dquote) && negb (Ascii.eqb c backslash).

(** The characters up to the closing quote, and the rest. *)
Fixpoint read_literal (s : string) : option (string * string) :=
  match s with
  | EmptyString => None
  | String c s' =>
    if Ascii.eqb c dquote then Some (EmptyString, s')
    else if negb (is_plain c) then None
    else match read_literal s' with
         | Some (v, rest) => Some (String c v, rest)
         | None => None
         end
  end.

(** A string literal after optional white space. *)
Definition read_string (s : string) : option (string * string) :=
  match skip_space s with
  | String c s' => if Ascii.eqb c dquote then read_literal s' else None
  | EmptyString => None
  end.

(** The next character after optional white space. *)
Definition read_char (s : string) : option (ascii * string) :=
  match skip_space s with
  | String c s' => Some (c, s')
  | EmptyString => None
  end.

(** A member is stored in the field its key names, exactly or else up to
    letter case; a member of another key is skipped. *)
Definition set_field (key val : string) (u : User) : User :=
  match dynamodbattribute.fieldByName key with
  | Some f => dynamodbattribute.field_set f val u
  | None => u
  end.

(** The members of an object, after its opening brace. *)
Fixpoint read_members (fuel : nat) (s : string) (u : User) : option User :=
  match fuel with
  | O => None
  | Datatypes.S fuel' =>
    match read_string s with
    | Some (key, s1) =>
      match read_char s1 with
      | Some (":"%char, s2) =>
        match read_string s2 with
        | Some (val, s3) =>
          match read_char s3 with
          | Some (","%char, s4) => read_members fuel' s4 (set_field key val u)
          | Some ("}"%char, s4) =>
            match skip_space s4 with
            | EmptyString => Some (set_field key val u)
            | String _ _ => None
            end
          | _ => None
          end
        | None => None
        end
      | _ => None
      end
    | None => None
    end
  end.

(** A decoder for a fragment of JSON: [null], the empty object, or one
    object whose members are string literals of printable ASCII characters
    without escapes. Every other text is refused with a syntax error,
    including texts [encoding/json] accepts. *)
Definition json_Unmarshal (data : string) (v : User) : User * option error :=
  match read_char data with
  | Some ("{"%char, s1) =>
    match read_char s1 with
    | Some ("}"%char, s2) =>
      match skip_space s2 with
      | EmptyString => (v, None)
      | String _ _ => (v, Some "invalid character")
      end
    | _ =>
      match read_members (String.length data) s1 v with
      | Some u => (u, None)
      | None => (v, Some "invalid character")
      end
    end
  | Some ("n"%char, String "u" (String "l" (String "l" s1))) =>
    match skip_space s1 with
    | EmptyString => (v, None)
    | String _ _ => (v, Some "invalid character")
    end
  | _ => (v, Some "invalid character")
  end.

(** [quoted s] is [s] between double quotes. *)
Definition quoted (s : string) : string :=
  String dquote (s ++ String dquote EmptyString).

Definition member (key val : string) : string :=
  quoted key ++ ": " ++ quoted val.

(** The body of a request for a user. *)
Definition body_of (email firstName lastName : string) : string :=
  "{" ++ member "email" email ++ ", " ++ member "firstName" firstName
      ++ ", " ++ member "lastName" lastName ++ "}".

(** The malformed body of TestCreateUser: an object whose [email] member
    has no value. *)
Definition body_malformed : string :=
  "{" ++ quoted "email" ++ ": , " ++ member "name" "" ++ "}".

Definition request (body : string) : events.APIGatewayProxyRequest :=
  events.mkRequest body ∅ ∅.

End fixtures.

(** ** Vocabulary of the statements *)

(** The world after one more logged call that left the client in [st]. *)
Definition logged {St : Type} (w : world St) (st : St) (c : call) : world St :=
  World st (calls w ++ [c]).

(** The key of the record of [email]. *)
Definition key_of (email : string) : gmap string AttributeValue :=
  {[ "email" := S email ]}.

(** What FetchUser answers to each answer of GetItem. *)
Definition fetch_answer (r : option GetItemOutput * option error)
  : res (option User * option error) :=
  match snd r with
  | Some _ => Val (None, Some user.ErrorFailedToFetchRecord)
  | None =>
    match fst r with
    | None => Panic
    | Some out =>
      match dynamodbattribute.UnmarshalMap (GetItemOutput_Item out) new_User with
      | (_, Some _) => Val (None, Some user.ErrorFailedToUnmarshalRecord)
      | (item, None) => Val (Some item, None)
      end
    end
  end.

(** What the save step answers to each answer of PutItem. *)
Definition save_answer (u : User) (r : option PutItemOutput * option error)
  : res (option User * option error) :=
  match snd r with
  | Some _ => Val (None, Some user.ErrorCouldNotDynamoPutItem)
  | None => Val (Some u, None)
  end.

(** The PutItem request for [u]. *)
Definition put_input (u : User) (tableName : string) : PutItemInput :=
  mkPutItemInput (fst (dynamodbattribute.MarshalMap u)) tableName.

(** The save step of CreateUser and UpdateUser, run in [w]: one PutItem for
    [u], answered by [save_answer]. *)
Definition save_step {St : Type} (u : User) (tableName : string)
    (dynaClient : DynamoDBAPI St) (w : world St) : res (option User * option error) * world St :=
  let '(r, st) := PutItem dynaClient (put_input u tableName) (client w) in
  (save_answer u r, logged w st (CallPutItem (put_input u tableName))).

(** The result and the call log of a finished run. *)
Definition result {St A : Type} (o : res A * world St) : res A := fst o.
Definition log {St A : Type} (o : res A * world St) : list call := calls (snd o).

(** The item of [u] with every attribute a string, as the tests store it. *)
Definition stored (u : User) : gmap string AttributeValue :=
  {[ "email" := S (Email u); "firstName" := S (FirstName u); "lastName" := S (LastName u) ]}.


(** A client whose DeleteItem fails. *)
Definition mock_delete_fails : mockDynamoDBClient :=
  mkMock (Some "delete error") None None None None None.

(** The requests and the clients of the tests. *)
Definition alan_oliver : User := mkUser "alan.oliver@ecs.co.uk" "Alan" "Oliver".
Definition alan_shearer : User := mkUser "alan.shearer@ecs.co.uk" "Alan" "Shearer".
Definition al_oliver : User := mkUser "alan.oliver@ecs.co.uk" "Al" "Oliver".

Definition request_alan_oliver : events.APIGatewayProxyRequest :=
  fixtures.request (fixtures.body_of "alan.oliver@ecs.co.uk" "Alan" "Oliver").

Definition request_invalid_email : events.APIGatewayProxyRequest :=
  fixtures.request (fixtures.body_of "invalid-email" "test" "test").

Definition request_malformed : events.APIGatewayProxyRequest :=
  fixtures.request fixtures.body_malformed.

(** GetItem finds nothing: an output with an empty Item. *)
Definition mock_empty_item : mockDynamoDBClient :=
  mkMock None (Some (mkGetItemOutput ∅)) None None None None.

(** GetItem finds a stored record. *)
Definition mock_existing : mockDynamoDBClient :=
  mkMock None (Some (mkGetItemOutput (stored al_oliver))) None None None None.

(** GetItem finds an item whose [firstName] is a boolean. *)
Definition mock_item_bool : mockDynamoDBClient :=
  mkMock None
    (Some (mkGetItemOutput {[ "email" := S "alan.oliver@ecs.co.uk"; "firstName" := BOOL true ]}))
    None None None None.

(** GetItem fails. *)
Definition mock_fetch_fails : mockDynamoDBClient :=
  mkMock None None (Some "test error") None None None.

(** Scan returns two records. *)
Definition mock_scan_two : mockDynamoDBClient :=
  mkMock None None None None
    (Some (mkScanOutput [stored alan_shearer; stored al_oliver])) None.

(** The GetItem request of the existence check for alan.oliver. *)
Definition get_alan_oliver : GetItemInput :=
  mkGetItemInput (key_of "alan.oliver@ecs.co.uk") "test".

(** GetItem finds nothing and PutItem fails. *)
Definition mock_put_fails : mockDynamoDBClient :=
  mkMock None (Some (mkGetItemOutput ∅)) None (Some "test error") None None.

(** A record with an empty field, and the clients that find what the save
    step wrote for it. *)
Definition no_first_name : User := mkUser "a@b.co" "" "B".

Definition mock_saved : mockDynamoDBClient :=
  mkMock None
    (Some (mkGetItemOutput (PutItemInput_Item (put_input no_first_name "test"))))
    None None None None.

Definition mock_scan_saved : mockDynamoDBClient :=
  mkMock None None None None
    (Some (mkScanOutput (map (fun u => PutItemInput_Item (put_input u "test"))
                             [no_first_name; alan_oliver])))
    None.

(** The request of TestDeleteUser: the email is a path parameter. *)
Definition request_path_email : events.APIGatewayProxyRequest :=
  events.mkRequest "" ∅ {[ "email" := "alan.oliver@ecs.co.uk" ]}.

(** A request for the record of alan.oliver by query parameter. *)
Definition request_query_email : events.APIGatewayProxyRequest :=
  events.mkRequest "" {[ "email" := "alan.oliver@ecs.co.uk" ]} ∅.

(** The store call [GetUser] of package handlers makes for [req]. *)
Definition GetUser_call (req : events.APIGatewayProxyRequest) (tableName : string) : call :=
  let email := map_index (events.QueryStringParameters req) "email" in
  if Nat.eqb (len email) 0
  then CallScan (mkScanInput tableName)
  else CallGetItem (mkGetItemInput (key_of email) tableName).

(** An encoder of response bodies for records whose fields need no
    escaping, with the members in the order of the struct tags; a nil
    pointer is [null], and a nil [ErrorMsg] is left out. *)
Definition marshal_user (u : User) : string :=
  "{" ++ fixtures.quoted "email" ++ ":" ++ fixtures.quoted (Email u) ++ ","
      ++ fixtures.quoted "firstName" ++ ":" ++ fixtures.quoted (FirstName u) ++ ","
      ++ fixtures.quoted "lastName" ++ ":" ++ fixtures.quoted (LastName u) ++ "}".

Fixpoint marshal_users (us : list User) : string :=
  match us with
  | [] => ""
  | [u] => marshal_user u
  | u :: us' => marshal_user u ++ "," ++ marshal_users us'
  end.

Definition marshal_plain (body : handlers.payload) : string :=
  match body with
  | handlers.body_error (handlers.mkErrorBody (Some msg)) =>
    "{" ++ fixtures.quoted "error" ++ ":" ++ fixtures.quoted msg ++ "}"
  | handlers.body_error (handlers.mkErrorBody None) => "{}"
  | handlers.body_user (Some u) => marshal_user u
  | handlers.body_user None => "null"
  | handlers.body_users (Some us) => "[" ++ marshal_users us ++ "]"
  | handlers.body_users None => "null"
  | handlers.body_nil => "null"
  | handlers.body_string s => fixtures.quoted s
  end.

(** The response builder on that encoder. *)
Definition plain_response
  : Z -> handlers.payload -> option handlers.APIGatewayProxyResponse * option error :=
  handlers.apiResponse marshal_plain.

(** An in-memory client: one table keyed by the [email] attribute, whose
    calls never fail. *)
Definition email_of (attrs : gmap string AttributeValue) : string :=
  match attrs !! "email" with
  | Some (S email) => email
  | _ => ""
  end.

Definition memory_API : DynamoDBAPI (gmap string (gmap string AttributeValue)) :=
  {| GetItem := fun input t =>
       ((Some (mkGetItemOutput (default ∅ (t !! email_of (GetItemInput_Key input)))), None), t);
     PutItem := fun input t =>
       ((Some mkPutItemOutput, None),
        <[email_of (PutItemInput_Item input) := PutItemInput_Item input]> t);
     Scan := fun _ t => ((Some (mkScanOutput (map snd (map_to_list t))), None), t);
     DeleteItem := fun input t =>
       ((Some mkDeleteItemOutput, None), delete (email_of (DeleteItemInput_Key input)) t) |}.

(** The table that holds the record of alan.oliver, and nothing else. *)
Definition table_alan_oliver : gmap string (gmap string AttributeValue) :=
  {[ "alan.oliver@ecs.co.uk" := stored alan_oliver ]}.

(** The DeleteItem request for alan.oliver. *)
Definition delete_alan_oliver : DeleteItemInput :=
  mkDeleteItemInput (key_of "alan.oliver@ecs.co.uk") "test".

(** A finished run that failed with [e]. *)
Definition fails_with {St A : Type} (o : res (option A * option error) * world St) (e : error)
  : Prop :=
  exists p, result o = Val (p, Some e).

(** The status of the response of a finished handler. *)
Definition status_of {St : Type}
    (o : res (option handlers.APIGatewayProxyResponse * option error) * world St)
  : option Z :=
  match result o with
  | Val (Some resp, _) => Some (handlers.StatusCode resp)
  | _ => None
  end.

(** * Properties *)

(** ** The fixtures at work *)

Example body_of_decodes :
  fixtures.json_Unmarshal (fixtures.body_of "alan.oliver@ecs.co.uk" "Alan" "Oliver") new_User
  = (mkUser "alan.oliver@ecs.co.uk" "Alan" "Oliver", None).
Proof. vm_compute. reflexivity. Qed.

Example body_malformed_fails :
  snd (fixtures.json_Unmarshal fixtures.body_malformed new_User) <> None.
Proof. vm_compute. discriminate. Qed.

Example email_examples :
  fixtures.IsEmailValid "alan.oliver@ecs.co.uk" = true /\
  fixtures.IsEmailValid "invalid-email" = false /\
  fixtures.IsEmailValid "bad" = false /\
  fixtures.IsEmailValid "a@b.co" = true.
Proof. vm_compute. repeat split. Qed.

(** ** Helpers *)

Lemma len_zero (s : string) : Nat.eqb (len s) 0 = true <-> s = "".
Proof. destruct s; simpl; split; congruence. Qed.

Lemma save_answer_cases (u : User) (r : option PutItemOutput * option error) :
  save_answer u r = Val (Some u, None) /\ snd r = None \/
  save_answer u r = Val (None, Some user.ErrorCouldNotDynamoPutItem) /\ snd r <> None.
Proof. unfold save_answer. destruct (snd r); [right | left]; split; congruence. Qed.

Section FetchProperties.

Context {St : Type}.
Implicit Types (dynaClient : DynamoDBAPI St) (w : world St).

Lemma FetchUser_eq email tableName dynaClient w :
  user.FetchUser email tableName dynaClient w =
  let '(r, st) := GetItem dynaClient (mkGetItemInput (key_of email) tableName) (client w) in
  (fetch_answer r, logged w st (CallGetItem (mkGetItemInput (key_of email) tableName))).
Proof.
  unfold user.FetchUser, call_GetItem, bind, key_of, logged, fetch_answer.
  destruct (GetItem _ _ _) as [[out err] st]; simpl.
  destruct err as [e|]; simpl; [reflexivity|].
  destruct out as [out|]; simpl; [|reflexivity].
  destruct (dynamodbattribute.UnmarshalMap _ _) as [item [e|]]; reflexivity.
Qed.

(** FetchUser never answers with both a record and an error, nor with
    neither. *)
Lemma FetchUser_answer email tableName dynaClient w p e w' :
  user.FetchUser email tableName dynaClient w = (Val (p, e), w') ->
  (is_Some p /\ e = None) \/
  (p = None /\ (e = Some user.ErrorFailedToFetchRecord \/
                e = Some user.ErrorFailedToUnmarshalRecord)).
Proof.
  rewrite FetchUser_eq.
  destruct (GetItem _ _ _) as [[out err] st].
  unfold fetch_answer; simpl.
  destruct err as [e0|]; [intros [= <- <- _]; right; auto|].
  destruct out as [out|]; [|discriminate].
  destruct (dynamodbattribute.UnmarshalMap _ _) as [item [e1|]];
    intros [= <- <- _]; [right; auto | left; eauto].
Qed.

End FetchProperties.

Section ServiceProperties.

Variable json_Unmarshal : string -> User -> User * option error.
Variable IsEmailValid : string -> bool.
Context {St : Type}.
Implicit Types (dynaClient : DynamoDBAPI St) (w : world St) (u : User).
Implicit Types (req : events.APIGatewayProxyRequest).

Local Abbreviation CreateUser := (user.CreateUser json_Unmarshal IsEmailValid).
Local Abbreviation UpdateUser := (user.UpdateUser json_Unmarshal).

(** *** Decoding *)

Lemma CreateUser_undecodable req tableName dynaClient w :
  snd (json_Unmarshal (events.Body req) new_User) <> None ->
  CreateUser req tableName dynaClient w = (Val (None, Some user.ErrorInvalidUserData), w).
Proof.
  unfold user.CreateUser.
  destruct (json_Unmarshal _ _) as [u [e|]]; simpl; [reflexivity | congruence].
Qed.

Lemma UpdateUser_undecodable req tableName dynaClient w :
  snd (json_Unmarshal (events.Body req) new_User) <> None ->
  UpdateUser req tableName dynaClient w = (Val (None, Some user.ErrorInvalidUserData), w).
Proof.
  unfold user.UpdateUser.
  destruct (json_Unmarshal _ _) as [u [e|]]; simpl; [reflexivity | congruence].
Qed.

Lemma CreateUser_invalid_email req tableName dynaClient w u :
  json_Unmarshal (events.Body req) new_User = (u, None) ->
  IsEmailValid (Email u) = false ->
  CreateUser req tableName dynaClient w = (Val (None, Some user.ErrorInvalidEmail), w).
Proof.
  intros Hu Hv. unfold user.CreateUser. rewrite Hu; simpl. rewrite Hv. reflexivity.
Qed.

(** *** After the existence check *)

Lemma save_eq u tableName dynaClient w :
  (let '(av, err) := dynamodbattribute.MarshalMap u in
   if negb (is_nil err) then ret (None, Some (errors_New user.ErrorCouldNotMarshalItem)) else
   let input := mkPutItemInput av tableName in
   '(_, err) <- call_PutItem dynaClient input;
   if negb (is_nil err)
   then ret (None, Some (errors_New user.ErrorCouldNotDynamoPutItem))
   else ret (Some u, None)) w
  = save_step u tableName dynaClient w.
Proof.
  unfold save_step, put_input, save_answer, call_PutItem, bind, logged; simpl.
  destruct (PutItem _ _ _) as [[out [e|]] st]; reflexivity.
Qed.

Lemma UpdateUser_fetch_panic req tableName dynaClient w u w1 :
  json_Unmarshal (events.Body req) new_User = (u, None) ->
  user.FetchUser (Email u) tableName dynaClient w = (Panic, w1) ->
  UpdateUser req tableName dynaClient w = (Panic, w1).
Proof.
  intros Hu Hf. unfold user.UpdateUser. rewrite Hu; simpl.
  unfold bind at 1. rewrite Hf. reflexivity.
Qed.

Lemma UpdateUser_fetch_error req tableName dynaClient w u p e w1 :
  json_Unmarshal (events.Body req) new_User = (u, None) ->
  user.FetchUser (Email u) tableName dynaClient w = (Val (p, Some e), w1) ->
  UpdateUser req tableName dynaClient w = (Val (None, Some e), w1).
Proof.
  intros Hu Hf. unfold user.UpdateUser. rewrite Hu; simpl.
  unfold bind at 1. rewrite Hf. reflexivity.
Qed.

Lemma UpdateUser_fetched req tableName dynaClient w u existingUser w1 :
  json_Unmarshal (events.Body req) new_User = (u, None) ->
  user.FetchUser (Email u) tableName dynaClient w = (Val (Some existingUser, None), w1) ->
  UpdateUser req tableName dynaClient w = save_step u tableName dynaClient w1.
Proof.
  intros Hu Hf. unfold user.UpdateUser. rewrite Hu; simpl.
  unfold bind at 1. rewrite Hf; simpl.
  unfold bind at 1; simpl. apply save_eq.
Qed.

Lemma CreateUser_fetch_panic req tableName dynaClient w u w1 :
  json_Unmarshal (events.Body req) new_User = (u, None) ->
  IsEmailValid (Email u) = true ->
  user.FetchUser (Email u) tableName dynaClient w = (Panic, w1) ->
  CreateUser req tableName dynaClient w = (Panic, w1).
Proof.
  intros Hu Hv Hf. unfold user.CreateUser. rewrite Hu; simpl. rewrite Hv; simpl.
  unfold bind at 1. rewrite Hf. reflexivity.
Qed.

Lemma CreateUser_fetch_error req tableName dynaClient w u p e w1 :
  json_Unmarshal (events.Body req) new_User = (u, None) ->
  IsEmailValid (Email u) = true ->
  user.FetchUser (Email u) tableName dynaClient w = (Val (p, Some e), w1) ->
  CreateUser req tableName dynaClient w = (Val (None, Some user.ErrorFailedToFetchRecord), w1).
Proof.
  intros Hu Hv Hf. unfold user.CreateUser. rewrite Hu; simpl. rewrite Hv; simpl.
  unfold bind at 1. rewrite Hf. reflexivity.
Qed.

Lemma CreateUser_fetched req tableName dynaClient w u existingUser w1 :
  json_Unmarshal (events.Body req) new_User = (u, None) ->
  IsEmailValid (Email u) = true ->
  user.FetchUser (Email u) tableName dynaClient w = (Val (Some existingUser, None), w1) ->
  CreateUser req tableName dynaClient w =
  if Nat.eqb (len (Email existingUser)) 0
  then save_step u tableName dynaClient w1
  else (Val (None, Some user.ErrorUserAlreadyExists), w1).
Proof.
  intros Hu Hv Hf. unfold user.CreateUser. rewrite Hu; simpl. rewrite Hv; simpl.
  unfold bind at 1. rewrite Hf; simpl.
  unfold bind at 1; simpl.
  destruct (Nat.eqb (len (Email existingUser)) 0); simpl; [apply save_eq | reflexivity].
Qed.

Lemma FetchUser_log email tableName dynaClient w r w1 :
  user.FetchUser email tableName dynaClient w = (r, w1) ->
  calls w1 = (calls w ++ [CallGetItem (mkGetItemInput (key_of email) tableName)])%list.
Proof.
  rewrite FetchUser_eq. destruct (GetItem _ _ _) as [a st]. intros [= _ <-]. reflexivity.
Qed.

Lemma save_step_result u tableName dynaClient w :
  result (save_step u tableName dynaClient w) = Val (Some u, None) \/
  result (save_step u tableName dynaClient w) = Val (None, Some user.ErrorCouldNotDynamoPutItem).
Proof.
  unfold save_step, result. destruct (PutItem _ _ _) as [r st]; simpl.
  destruct (save_answer_cases u r) as [[-> _]|[-> _]]; auto.
Qed.

Lemma save_step_log u tableName dynaClient w :
  log (save_step u tableName dynaClient w)
  = (calls w ++ [CallPutItem (put_input u tableName)])%list.
Proof. unfold save_step, log. destruct (PutItem _ _ _) as [r st]. reflexivity. Qed.

(** C1. When the body of an update request decodes and FetchUser returns
    without an error, UpdateUser goes on to the save step whatever record
    was fetched, empty or populated: it issues the PutItem for the decoded
    record, returns that record when the write succeeds, and never fails
    with ErrorUserAlreadyExists. *)
Theorem UpdateUser_existence_check_never_blocks
    req tableName dynaClient w u existingUser w1 :
  json_Unmarshal (events.Body req) new_User = (u, None) ->
  user.FetchUser (Email u) tableName dynaClient w = (Val (existingUser, None), w1) ->
  UpdateUser req tableName dynaClient w = save_step u tableName dynaClient w1 /\
  log (UpdateUser req tableName dynaClient w)
    = (calls w1 ++ [CallPutItem (put_input u tableName)])%list /\
  (snd (fst (PutItem dynaClient (put_input u tableName) (client w1))) = None ->
   result (UpdateUser req tableName dynaClient w) = Val (Some u, None)) /\
  ~ fails_with (UpdateUser req tableName dynaClient w) user.ErrorUserAlreadyExists.
Proof.
  intros Hu Hf.
  destruct (FetchUser_answer _ _ _ _ _ _ _ Hf) as [[[ex ->] _]|[_ [?|?]]]; try discriminate.
  rewrite (UpdateUser_fetched _ _ _ _ _ _ _ Hu Hf).
  split; [reflexivity|]. split; [apply save_step_log|]. split.
  - unfold save_step, result. destruct (PutItem _ _ _) as [r st]; simpl.
    unfold save_answer. intros ->. reflexivity.
  - intros [p Hp].
    destruct (save_step_result u tableName dynaClient w1) as [H|H];
      rewrite H in Hp; discriminate.
Qed.

(** C2. When the body of a create request decodes and its email passes
    the format check, CreateUser fails with ErrorUserAlreadyExists exactly
    when FetchUser returns, without error, a record whose Email is not
    empty; a fetched record whose Email is empty lets CreateUser go on to
    the save step. *)
Theorem CreateUser_already_exists_iff req tableName dynaClient w u :
  json_Unmarshal (events.Body req) new_User = (u, None) ->
  IsEmailValid (Email u) = true ->
  (fails_with (CreateUser req tableName dynaClient w) user.ErrorUserAlreadyExists <->
   exists existingUser,
     result (user.FetchUser (Email u) tableName dynaClient w) = Val (Some existingUser, None)
     /\ Email existingUser <> "") /\
  (forall existingUser w1,
     user.FetchUser (Email u) tableName dynaClient w = (Val (Some existingUser, None), w1) ->
     Email existingUser = "" ->
     CreateUser req tableName dynaClient w = save_step u tableName dynaClient w1).
Proof.
  intros Hu Hv. split; [split|].
  - intros [p Hp].
    destruct (user.FetchUser (Email u) tableName dynaClient w) as [r w1] eqn:Hf.
    destruct r as [[existingUser e]|].
    + destruct e as [e|].
      * rewrite (CreateUser_fetch_error _ _ _ _ _ _ _ _ Hu Hv Hf) in Hp. discriminate.
      * destruct (FetchUser_answer _ _ _ _ _ _ _ Hf) as [[[ex ->] _]|[_ [?|?]]];
          try discriminate.
        exists ex. split; [reflexivity|].
        rewrite (CreateUser_fetched _ _ _ _ _ _ _ Hu Hv Hf) in Hp.
        intros Hempty. apply len_zero in Hempty. rewrite Hempty in Hp.
        destruct (save_step_result u tableName dynaClient w1) as [H|H];
          rewrite H in Hp; discriminate.
    + rewrite (CreateUser_fetch_panic _ _ _ _ _ _ Hu Hv Hf) in Hp. discriminate.
  - intros [existingUser [Hf Hne]].
    destruct (user.FetchUser (Email u) tableName dynaClient w) as [r w1] eqn:Hf'.
    unfold result in Hf; simpl in Hf; subst r.
    rewrite (CreateUser_fetched _ _ _ _ _ _ _ Hu Hv Hf').
    destruct (Nat.eqb (len (Email existingUser)) 0) eqn:Hl.
    + apply len_zero in Hl. contradiction.
    + exists None. reflexivity.
  - intros existingUser w1 Hf Hempty.
    rewrite (CreateUser_fetched _ _ _ _ _ _ _ Hu Hv Hf).
    apply len_zero in Hempty. rewrite Hempty. reflexivity.
Qed.

Lemma UpdateUser_log_prefix req tableName dynaClient w u :
  json_Unmarshal (events.Body req) new_User = (u, None) ->
  exists rest,
    log (UpdateUser req tableName dynaClient w)
    = (calls w ++ CallGetItem (mkGetItemInput (key_of (Email u)) tableName) :: rest)%list.
Proof.
  intros Hu.
  destruct (user.FetchUser (Email u) tableName dynaClient w) as [r w1] eqn:Hf.
  pose proof (FetchUser_log _ _ _ _ _ _ Hf) as Hlog.
  destruct r as [[existingUser [e|]]|].
  - exists []. rewrite (UpdateUser_fetch_error _ _ _ _ _ _ _ _ Hu Hf). exact Hlog.
  - destruct (FetchUser_answer _ _ _ _ _ _ _ Hf) as [[[ex ->] _]|[_ [?|?]]];
      try discriminate.
    exists [CallPutItem (put_input u tableName)].
    rewrite (UpdateUser_fetched _ _ _ _ _ _ _ Hu Hf), save_step_log, Hlog.
    rewrite <- app_assoc. reflexivity.
  - exists []. rewrite (UpdateUser_fetch_panic _ _ _ _ _ _ Hu Hf). exact Hlog.
Qed.

Lemma UpdateUser_not_invalid_email req tableName dynaClient w :
  ~ fails_with (UpdateUser req tableName dynaClient w) user.ErrorInvalidEmail.
Proof.
  intros [p Hp].
  destruct (json_Unmarshal (events.Body req) new_User) as [u err] eqn:Hu.
  destruct err as [e|].
  - rewrite UpdateUser_undecodable in Hp by (rewrite Hu; discriminate). discriminate.
  - destruct (user.FetchUser (Email u) tableName dynaClient w) as [r w1] eqn:Hf.
    destruct r as [[existingUser [e|]]|].
    + rewrite (UpdateUser_fetch_error _ _ _ _ _ _ _ _ Hu Hf) in Hp.
      destruct (FetchUser_answer _ _ _ _ _ _ _ Hf) as [[_ ?]|[_ [?|?]]];
        simplify_eq; discriminate.
    + destruct (FetchUser_answer _ _ _ _ _ _ _ Hf) as [[[ex ->] _]|[_ [?|?]]];
        try discriminate.
      rewrite (UpdateUser_fetched _ _ _ _ _ _ _ Hu Hf) in Hp.
      destruct (save_step_result u tableName dynaClient w1) as [H|H];
        rewrite H in Hp; discriminate.
    + rewrite (UpdateUser_fetch_panic _ _ _ _ _ _ Hu Hf) in Hp. discriminate.
Qed.

(** C3. A body that fails to decode makes CreateUser and UpdateUser both
    fail with ErrorInvalidUserData, before any call to the store. A body
    that decodes to an email failing the format check makes CreateUser
    fail with ErrorInvalidEmail; UpdateUser does not consult the check: on
    the same body it goes on to the GetItem of the existence check, and it
    never fails with ErrorInvalidEmail. *)
Theorem decoding_and_email_format_checks req tableName dynaClient w u err :
  json_Unmarshal (events.Body req) new_User = (u, err) ->
  (err <> None ->
   CreateUser req tableName dynaClient w = (Val (None, Some user.ErrorInvalidUserData), w) /\
   UpdateUser req tableName dynaClient w = (Val (None, Some user.ErrorInvalidUserData), w)) /\
  (err = None -> IsEmailValid (Email u) = false ->
   CreateUser req tableName dynaClient w = (Val (None, Some user.ErrorInvalidEmail), w) /\
   (exists rest,
      log (UpdateUser req tableName dynaClient w)
      = (calls w ++ CallGetItem (mkGetItemInput (key_of (Email u)) tableName) :: rest)%list) /\
   ~ fails_with (UpdateUser req tableName dynaClient w) user.ErrorInvalidEmail).
Proof.
  intros Hu. split.
  - intros Herr. split.
    + apply CreateUser_undecodable. rewrite Hu. exact Herr.
    + apply UpdateUser_undecodable. rewrite Hu. exact Herr.
  - intros -> Hv. split; [|split].
    + exact (CreateUser_invalid_email _ _ _ _ _ Hu Hv).
    + exact (UpdateUser_log_prefix _ _ _ _ _ Hu).
    + apply UpdateUser_not_invalid_email.
Qed.

(** C4. When the GetItem of the existence check fails, CreateUser returns
    the fixed error ErrorFailedToFetchRecord, and UpdateUser returns the
    very error FetchUser returned. *)
Theorem existence_check_failure_mapping req tableName dynaClient w u out e st :
  json_Unmarshal (events.Body req) new_User = (u, None) ->
  GetItem dynaClient (mkGetItemInput (key_of (Email u)) tableName) (client w)
    = ((out, Some e), st) ->
  (IsEmailValid (Email u) = true ->
   result (CreateUser req tableName dynaClient w)
     = Val (None, Some user.ErrorFailedToFetchRecord)) /\
  (exists fetchErr,
     result (user.FetchUser (Email u) tableName dynaClient w) = Val (None, Some fetchErr) /\
     result (UpdateUser req tableName dynaClient w) = Val (None, Some fetchErr)).
Proof.
  intros Hu Hg.
  assert (Hf : user.FetchUser (Email u) tableName dynaClient w
               = (Val (None, Some user.ErrorFailedToFetchRecord),
                  logged w st (CallGetItem (mkGetItemInput (key_of (Email u)) tableName)))).
  { rewrite FetchUser_eq, Hg. reflexivity. }
  split.
  - intros Hv. rewrite (CreateUser_fetch_error _ _ _ _ _ _ _ _ Hu Hv Hf). reflexivity.
  - exists user.ErrorFailedToFetchRecord. split.
    + rewrite Hf. reflexivity.
    + rewrite (UpdateUser_fetch_error _ _ _ _ _ _ _ _ Hu Hf). reflexivity.
Qed.

(** C6. When the body of a create request decodes, its email passes the
    format check, the existence check returns a record with an empty
    Email and the PutItem succeeds, CreateUser returns exactly the record
    decoded from the body; the calls it made are the GetItem of the
    existence check followed by the PutItem, and nothing after it. *)
Theorem CreateUser_returns_parsed_record
    req tableName dynaClient w u existingUser w1 out st :
  json_Unmarshal (events.Body req) new_User = (u, None) ->
  IsEmailValid (Email u) = true ->
  user.FetchUser (Email u) tableName dynaClient w = (Val (Some existingUser, None), w1) ->
  Email existingUser = "" ->
  PutItem dynaClient (put_input u tableName) (client w1) = ((out, None), st) ->
  CreateUser req tableName dynaClient w
    = (Val (Some u, None), logged w1 st (CallPutItem (put_input u tableName))) /\
  log (CreateUser req tableName dynaClient w)
    = (calls w ++ [CallGetItem (mkGetItemInput (key_of (Email u)) tableName);
                   CallPutItem (put_input u tableName)])%list.
Proof.
  intros Hu Hv Hf Hempty Hput.
  assert (Hc : CreateUser req tableName dynaClient w
               = (Val (Some u, None), logged w1 st (CallPutItem (put_input u tableName)))).
  { rewrite (CreateUser_fetched _ _ _ _ _ _ _ Hu Hv Hf).
    apply len_zero in Hempty. rewrite Hempty.
    unfold save_step. rewrite Hput. reflexivity. }
  split; [exact Hc|].
  rewrite Hc. unfold log, logged; simpl.
  rewrite (FetchUser_log _ _ _ _ _ _ Hf), <- app_assoc. reflexivity.
Qed.

(** The field access of UpdateUser's guard does panic on a nil record. *)
Lemma update_guard_nil w : user.update_guard (St:=St) None w = (Panic, w).
Proof. reflexivity. Qed.

(** C10. Whenever FetchUser returns without error, the record it returns
    is not nil; UpdateUser's guard then stops at its first conjunct,
    without reading the Email of a nil record, and evaluates to false;
    UpdateUser does not panic. *)
Theorem update_guard_never_dereferences_nil
    req tableName dynaClient w u existingUser w1 :
  json_Unmarshal (events.Body req) new_User = (u, None) ->
  user.FetchUser (Email u) tableName dynaClient w = (Val (existingUser, None), w1) ->
  existingUser <> None /\
  user.update_guard existingUser w1 = (Val false, w1) /\
  result (UpdateUser req tableName dynaClient w) <> Panic.
Proof.
  intros Hu Hf.
  destruct (FetchUser_answer _ _ _ _ _ _ _ Hf) as [[[ex ->] _]|[_ [?|?]]]; try discriminate.
  split; [discriminate|]. split; [reflexivity|].
  rewrite (UpdateUser_fetched _ _ _ _ _ _ _ Hu Hf).
  destruct (save_step_result u tableName dynaClient w1) as [H|H]; rewrite H; discriminate.
Qed.

End ServiceProperties.

Section StoreProperties.

Context {St : Type}.
Implicit Types (dynaClient : DynamoDBAPI St) (w : world St).

Lemma UnmarshalMap_empty : dynamodbattribute.UnmarshalMap ∅ new_User = (new_User, None).
Proof.
  unfold dynamodbattribute.UnmarshalMap. rewrite map_to_list_empty. reflexivity.
Qed.

Lemma UnmarshalMap_stored (u : User) :
  dynamodbattribute.UnmarshalMap (stored u) new_User = (u, None).
Proof. destruct u as [e f l]. vm_compute. reflexivity. Qed.

(** What MarshalMap writes, UnmarshalMap reads back. *)
Lemma UnmarshalMap_MarshalMap (u : User) :
  dynamodbattribute.UnmarshalMap (fst (dynamodbattribute.MarshalMap u)) new_User = (u, None).
Proof. destruct u as [[|c e] [|c' f] [|c'' l]]; vm_compute; reflexivity. Qed.








(** C5. When GetItem succeeds with an empty attribute map, FetchUser
    returns, without error, the record whose three fields are empty;
    when GetItem fails, FetchUser returns ErrorFailedToFetchRecord. *)
Theorem FetchUser_empty_item_is_empty_record email tableName dynaClient w r st :
  GetItem dynaClient (mkGetItemInput (key_of email) tableName) (client w) = (r, st) ->
  (forall out, r = (Some out, None) -> GetItemOutput_Item out = ∅ ->
   user.FetchUser email tableName dynaClient w
     = (Val (Some (mkUser "" "" ""), None),
        logged w st (CallGetItem (mkGetItemInput (key_of email) tableName)))) /\
  (forall out e, r = (out, Some e) ->
   user.FetchUser email tableName dynaClient w
     = (Val (None, Some user.ErrorFailedToFetchRecord),
        logged w st (CallGetItem (mkGetItemInput (key_of email) tableName)))).
Proof.
  intros Hg. rewrite FetchUser_eq, Hg. split.
  - intros out -> Hempty. unfold fetch_answer; simpl.
    rewrite Hempty, UnmarshalMap_empty. reflexivity.
  - intros out e ->. reflexivity.
Qed.

Lemma FetchAllUsers_eq tableName dynaClient w :
  user.FetchAllUsers tableName dynaClient w =
  let '(r, st) := Scan dynaClient (mkScanInput tableName) (client w) in
  (match snd r with
   | Some _ => Val (None, Some user.ErrorFailedToFetchRecord)
   | None =>
     match fst r with
     | None => Panic
     | Some out =>
       match dynamodbattribute.UnmarshalListOfMaps (ScanOutput_Items out) [] with
       | (_, Some _) => Val (None, Some user.ErrorFailedToUnmarshalRecord)
       | (item, None) => Val (Some item, None)
       end
     end
   end, logged w st (CallScan (mkScanInput tableName))).
Proof.
  unfold user.FetchAllUsers, call_Scan, bind, logged.
  destruct (Scan _ _ _) as [[out err] st]; simpl.
  destruct err as [e|]; simpl; [reflexivity|].
  destruct out as [out|]; simpl; [|reflexivity].
  destruct (dynamodbattribute.UnmarshalListOfMaps _ _) as [item [e|]]; reflexivity.
Qed.

Lemma UnmarshalListOfMaps_decodeList (l : list (gmap string AttributeValue)) :
  dynamodbattribute.UnmarshalListOfMaps l [] = dynamodbattribute.decodeList l.
Proof. destruct l; reflexivity. Qed.

Lemma decodeList_Forall2 (l : list (gmap string AttributeValue)) (users : list User) :
  Forall2 (fun item u => dynamodbattribute.UnmarshalMap item new_User = (u, None)) l users ->
  dynamodbattribute.decodeList l = (users, None).
Proof.
  induction 1 as [|item u l users Hu _ IH]; simpl; [reflexivity|].
  rewrite Hu, IH. reflexivity.
Qed.


Lemma Forall2_stored (users : list User) :
  Forall2 (fun item u => dynamodbattribute.UnmarshalMap item new_User = (u, None))
          (map stored users) users.
Proof.
  induction users as [|u users IH]; simpl; constructor; [apply UnmarshalMap_stored | exact IH].
Qed.


(** C8. DeleteUser makes exactly one call to the store, the DeleteItem of
    the key of the email parameter, with no read before it, and leaves the
    client as that call left it; it returns no error when that call
    returns none, whatever the store held, and it returns
    ErrorFailedToDeleteRecord exactly when that call fails. *)
Theorem DeleteUser_one_unconditional_delete req tableName dynaClient w out err st :
  DeleteItem dynaClient
    (mkDeleteItemInput (key_of (map_index (events.QueryStringParameters req) "email")) tableName)
    (client w) = ((out, err), st) ->
  user.DeleteUser req tableName dynaClient w
    = (Val (match err with
            | Some _ => Some user.ErrorFailedToDeleteRecord
            | None => None
            end),
       logged w st
         (CallDeleteItem
            (mkDeleteItemInput (key_of (map_index (events.QueryStringParameters req) "email"))
                               tableName))) /\
  client (snd (user.DeleteUser req tableName dynaClient w)) = st /\
  log (user.DeleteUser req tableName dynaClient w)
    = (calls w ++ [CallDeleteItem
         (mkDeleteItemInput (key_of (map_index (events.QueryStringParameters req) "email"))
                            tableName)])%list /\
  (err = None -> result (user.DeleteUser req tableName dynaClient w) = Val None) /\
  (result (user.DeleteUser req tableName dynaClient w)
     = Val (Some user.ErrorFailedToDeleteRecord) <-> err <> None).
Proof.
  intros Hd.
  unfold user.DeleteUser, call_DeleteItem, bind, log, result, key_of, logged in *.
  rewrite Hd; simpl.
  destruct err as [e|]; simpl.
  - split; [reflexivity|]. split; [reflexivity|]. split; [reflexivity|].
    split; [discriminate|]. split; [discriminate | reflexivity].
  - split; [reflexivity|]. split; [reflexivity|]. split; [reflexivity|].
    split; [reflexivity|]. split; [discriminate | congruence].
Qed.

End StoreProperties.

Section HandlerProperties.

Variable apiResponse
  : Z -> handlers.payload -> option handlers.APIGatewayProxyResponse * option error.
Variable json_Unmarshal : string -> User -> User * option error.
Variable IsEmailValid : string -> bool.
Context {St : Type}.
Implicit Types (dynaClient : DynamoDBAPI St) (w : world St).
Implicit Types (req : events.APIGatewayProxyRequest).

(** The handlers of create, update and fetch hand every error of the
    service to the response builder with status 500. *)
Lemma CreateUser_handler_error req tableName dynaClient w p e :
  result (user.CreateUser json_Unmarshal IsEmailValid req tableName dynaClient w)
    = Val (p, Some e) ->
  result (handlers.CreateUser apiResponse json_Unmarshal IsEmailValid
            req tableName dynaClient w)
    = Val (apiResponse 500%Z (handlers.body_error (handlers.mkErrorBody (Some e)))).
Proof.
  unfold result, handlers.CreateUser, bind.
  destruct (user.CreateUser _ _ _ _ _ _) as [r w1]; simpl. intros ->. reflexivity.
Qed.

Lemma UpdateUser_handler_error req tableName dynaClient w p e :
  result (user.UpdateUser json_Unmarshal req tableName dynaClient w) = Val (p, Some e) ->
  result (handlers.UpdateUser apiResponse json_Unmarshal req tableName dynaClient w)
    = Val (apiResponse 500%Z (handlers.body_error (handlers.mkErrorBody (Some e)))).
Proof.
  unfold result, handlers.UpdateUser, bind.
  destruct (user.UpdateUser _ _ _ _ _) as [r w1]; simpl. intros ->. reflexivity.
Qed.

Lemma GetUser_handler_error_one req tableName dynaClient w p e :
  Nat.ltb 0 (len (map_index (events.QueryStringParameters req) "email")) = true ->
  result (user.FetchUser (map_index (events.QueryStringParameters req) "email")
            tableName dynaClient w) = Val (p, Some e) ->
  result (handlers.GetUser apiResponse req tableName dynaClient w)
    = Val (apiResponse 500%Z (handlers.body_error (handlers.mkErrorBody (Some e)))).
Proof.
  unfold result, handlers.GetUser, bind. intros ->.
  destruct (user.FetchUser _ _ _ _) as [r w1]; simpl. intros ->. reflexivity.
Qed.

Lemma GetUser_handler_error_all req tableName dynaClient w p e :
  Nat.ltb 0 (len (map_index (events.QueryStringParameters req) "email")) = false ->
  result (user.FetchAllUsers tableName dynaClient w) = Val (p, Some e) ->
  result (handlers.GetUser apiResponse req tableName dynaClient w)
    = Val (apiResponse 500%Z (handlers.body_error (handlers.mkErrorBody (Some e)))).
Proof.
  unfold result, handlers.GetUser, bind. intros ->.
  destruct (user.FetchAllUsers _ _ _) as [r w1]; simpl. intros ->. reflexivity.
Qed.

(** The handler of delete hands every error of the service to the response
    builder with status 400. *)
Lemma DeleteUser_handler_error req tableName dynaClient w e :
  result (user.DeleteUser req tableName dynaClient w) = Val (Some e) ->
  result (handlers.DeleteUser apiResponse req tableName dynaClient w)
    = Val (apiResponse 400%Z (handlers.body_error (handlers.mkErrorBody (Some e)))).
Proof.
  unfold result, handlers.DeleteUser, bind.
  destruct (user.DeleteUser _ _ _ _) as [r w1]; simpl. intros ->. reflexivity.
Qed.

End HandlerProperties.

(** C9. On a client whose DeleteItem fails, DeleteUser of package user
    returns ErrorFailedToDeleteRecord, and the handler DeleteUser builds
    its response with status 400, not 500: with the response builder of the
    spec the status of the response is 400. The handlers of the other
    operations answer an error of the service with status 500. *)
Theorem DeleteUser_handler_failure_status
    (apiResponse
      : Z -> handlers.payload -> option handlers.APIGatewayProxyResponse * option error)
    (json_Marshal : handlers.payload -> string) :
  result (run (user.DeleteUser (fixtures.request "") "test" mockDynamoDBClient_API)
              mock_delete_fails)
    = Val (Some user.ErrorFailedToDeleteRecord) /\
  result (run (handlers.DeleteUser apiResponse (fixtures.request "") "test"
                 mockDynamoDBClient_API) mock_delete_fails)
    = Val (apiResponse 400%Z (handlers.body_error
                              (handlers.mkErrorBody (Some "failed to delete record")))) /\
  status_of (run (handlers.DeleteUser (handlers.apiResponse json_Marshal)
                    (fixtures.request "") "test" mockDynamoDBClient_API) mock_delete_fails)
    = Some 400%Z.
Proof. repeat split. Qed.

(** ** The test suite of package user, replayed *)

Example test_create_user_already_exists :
  result (run (user.CreateUser fixtures.json_Unmarshal fixtures.IsEmailValid
                 request_alan_oliver "test" mockDynamoDBClient_API) mock_existing)
  = Val (None, Some "user already exists").
Proof. vm_compute. reflexivity. Qed.

Example test_create_user_put_fails :
  result (run (user.CreateUser fixtures.json_Unmarshal fixtures.IsEmailValid
                 request_alan_oliver "test" mockDynamoDBClient_API)
              (mkMock None (Some (mkGetItemOutput ∅)) None (Some "test error") None None))
  = Val (None, Some "could not update record").
Proof. vm_compute. reflexivity. Qed.

Example test_update_user :
  result (run (user.UpdateUser fixtures.json_Unmarshal
                 request_alan_oliver "test" mockDynamoDBClient_API) mock_existing)
  = Val (Some alan_oliver, None).
Proof. vm_compute. reflexivity. Qed.

(** With neither an output nor an error from GetItem, FetchUser panics. *)
Example FetchUser_nil_output_panics :
  result (run (user.FetchUser "a@b.co" "test" mockDynamoDBClient_API) mockDb) = Panic.
Proof. vm_compute. reflexivity. Qed.

(** When the fetched item does not unmarshal, CreateUser replaces the error
    of FetchUser and UpdateUser forwards it. *)
Example existence_check_unmarshal_asymmetry :
  result (run (user.CreateUser fixtures.json_Unmarshal fixtures.IsEmailValid
                 request_alan_oliver "test" mockDynamoDBClient_API) mock_item_bool)
    = Val (None, Some "failed to fetch record") /\
  result (run (user.UpdateUser fixtures.json_Unmarshal
                 request_alan_oliver "test" mockDynamoDBClient_API) mock_item_bool)
    = Val (None, Some "failed to unmarshal record").
Proof. split; vm_compute; reflexivity. Qed.


(** ** The theorems at the requests of the test suite *)

(** Updating a record the store does not hold: the guard lets it through. *)
Lemma UpdateUser_existence_check_never_blocks_witness :
  fixtures.json_Unmarshal (events.Body request_alan_oliver) new_User = (alan_oliver, None) /\
  user.FetchUser "alan.oliver@ecs.co.uk" "test" mockDynamoDBClient_API (World mock_empty_item [])
    = (Val (Some new_User, None), World mock_empty_item [CallGetItem get_alan_oliver]) /\
  result (run (user.UpdateUser fixtures.json_Unmarshal request_alan_oliver "test"
                 mockDynamoDBClient_API) mock_empty_item)
    = Val (Some alan_oliver, None) /\
  ~ fails_with (run (user.UpdateUser fixtures.json_Unmarshal request_alan_oliver "test"
                       mockDynamoDBClient_API) mock_empty_item)
      user.ErrorUserAlreadyExists.
Proof.
  assert (Hu : fixtures.json_Unmarshal (events.Body request_alan_oliver) new_User
               = (alan_oliver, None)) by (vm_compute; reflexivity).
  assert (Hf : user.FetchUser (Email alan_oliver) "test" mockDynamoDBClient_API
                 (World mock_empty_item [])
               = (Val (Some new_User, None),
                  World mock_empty_item [CallGetItem get_alan_oliver]))
    by (vm_compute; reflexivity).
  destruct (UpdateUser_existence_check_never_blocks fixtures.json_Unmarshal
              request_alan_oliver "test" mockDynamoDBClient_API (World mock_empty_item [])
              alan_oliver (Some new_User) _ Hu Hf) as (_ & _ & Hput & Hnot).
  split; [exact Hu|]. split; [exact Hf|]. split; [apply Hput; reflexivity | exact Hnot].
Defined.

(** Creating a record the store already holds. *)
Lemma CreateUser_already_exists_iff_witness :
  fixtures.json_Unmarshal (events.Body request_alan_oliver) new_User = (alan_oliver, None) /\
  fixtures.IsEmailValid (Email alan_oliver) = true /\
  fails_with (run (user.CreateUser fixtures.json_Unmarshal fixtures.IsEmailValid
                     request_alan_oliver "test" mockDynamoDBClient_API) mock_existing)
    user.ErrorUserAlreadyExists.
Proof.
  assert (Hu : fixtures.json_Unmarshal (events.Body request_alan_oliver) new_User
               = (alan_oliver, None)) by (vm_compute; reflexivity).
  assert (Hv : fixtures.IsEmailValid (Email alan_oliver) = true) by (vm_compute; reflexivity).
  destruct (CreateUser_already_exists_iff fixtures.json_Unmarshal fixtures.IsEmailValid
              request_alan_oliver "test" mockDynamoDBClient_API (World mock_existing [])
              alan_oliver Hu Hv) as [[_ Hback] _].
  split; [exact Hu|]. split; [exact Hv|].
  apply Hback. exists al_oliver. split; [vm_compute; reflexivity | discriminate].
Defined.

(** The malformed body and the body with an invalid email. *)
Lemma decoding_and_email_format_checks_witness :
  (user.CreateUser fixtures.json_Unmarshal fixtures.IsEmailValid request_malformed "test"
     mockDynamoDBClient_API (World mockDb [])
   = (Val (None, Some "invalid user data"), World mockDb []) /\
   user.UpdateUser fixtures.json_Unmarshal request_malformed "test"
     mockDynamoDBClient_API (World mockDb [])
   = (Val (None, Some "invalid user data"), World mockDb [])) /\
  (user.CreateUser fixtures.json_Unmarshal fixtures.IsEmailValid request_invalid_email "test"
     mockDynamoDBClient_API (World mock_existing [])
   = (Val (None, Some "invalid email"), World mock_existing []) /\
   ~ fails_with (user.UpdateUser fixtures.json_Unmarshal request_invalid_email "test"
                   mockDynamoDBClient_API (World mock_existing []))
       user.ErrorInvalidEmail).
Proof.
  split.
  - apply (decoding_and_email_format_checks fixtures.json_Unmarshal fixtures.IsEmailValid
             request_malformed "test" mockDynamoDBClient_API (World mockDb [])
             new_User (Some "invalid character")).
    + vm_compute; reflexivity.
    + discriminate.
  - destruct (decoding_and_email_format_checks fixtures.json_Unmarshal fixtures.IsEmailValid
                request_invalid_email "test" mockDynamoDBClient_API (World mock_existing [])
                (mkUser "invalid-email" "test" "test") None) as [_ H].
    + vm_compute; reflexivity.
    + destruct H as (Hc & _ & Hn); [reflexivity | vm_compute; reflexivity |].
      split; [exact Hc | exact Hn].
Defined.

(** The existence check on a client whose GetItem fails. *)
Lemma existence_check_failure_mapping_witness :
  GetItem mockDynamoDBClient_API get_alan_oliver mock_fetch_fails
    = ((None, Some "test error"), mock_fetch_fails) /\
  result (run (user.CreateUser fixtures.json_Unmarshal fixtures.IsEmailValid
                 request_alan_oliver "test" mockDynamoDBClient_API) mock_fetch_fails)
    = Val (None, Some "failed to fetch record") /\
  (exists fetchErr,
     result (run (user.FetchUser "alan.oliver@ecs.co.uk" "test" mockDynamoDBClient_API)
                 mock_fetch_fails) = Val (None, Some fetchErr) /\
     result (run (user.UpdateUser fixtures.json_Unmarshal request_alan_oliver "test"
                    mockDynamoDBClient_API) mock_fetch_fails) = Val (None, Some fetchErr)).
Proof.
  assert (Hg : GetItem mockDynamoDBClient_API
                 (mkGetItemInput (key_of (Email alan_oliver)) "test")
                 (client (World mock_fetch_fails []))
               = ((None, Some "test error"), mock_fetch_fails)) by reflexivity.
  destruct (existence_check_failure_mapping fixtures.json_Unmarshal fixtures.IsEmailValid
              request_alan_oliver "test" mockDynamoDBClient_API (World mock_fetch_fails [])
              alan_oliver None "test error" mock_fetch_fails) as [Hc Hupd].
  - vm_compute; reflexivity.
  - exact Hg.
  - split; [exact Hg|]. split; [apply Hc; vm_compute; reflexivity | exact Hupd].
Defined.

(** FetchUser on an empty item and on a failing GetItem. *)
Lemma FetchUser_empty_item_is_empty_record_witness :
  result (run (user.FetchUser "alan.oliver@ecs.co.uk" "test" mockDynamoDBClient_API)
              mock_empty_item) = Val (Some (mkUser "" "" ""), None) /\
  result (run (user.FetchUser "alan.oliver@ecs.co.uk" "test" mockDynamoDBClient_API)
              mock_fetch_fails) = Val (None, Some "failed to fetch record").
Proof.
  split.
  - destruct (FetchUser_empty_item_is_empty_record "alan.oliver@ecs.co.uk" "test"
                mockDynamoDBClient_API (World mock_empty_item [])
                (Some (mkGetItemOutput ∅), None) mock_empty_item eq_refl) as [H _].
    unfold run, result. rewrite (H (mkGetItemOutput ∅) eq_refl eq_refl). reflexivity.
  - destruct (FetchUser_empty_item_is_empty_record "alan.oliver@ecs.co.uk" "test"
                mockDynamoDBClient_API (World mock_fetch_fails [])
                (None, Some "test error") mock_fetch_fails eq_refl) as [_ H].
    unfold run, result. rewrite (H None "test error" eq_refl). reflexivity.
Defined.

(** TestCreateUser, "expect user to be created". *)
Lemma CreateUser_returns_parsed_record_witness :
  fixtures.IsEmailValid (Email alan_oliver) = true /\
  PutItem mockDynamoDBClient_API (put_input alan_oliver "test") mock_empty_item
    = ((None, None), mock_empty_item) /\
  result (run (user.CreateUser fixtures.json_Unmarshal fixtures.IsEmailValid
                 request_alan_oliver "test" mockDynamoDBClient_API) mock_empty_item)
    = Val (Some alan_oliver, None) /\
  log (run (user.CreateUser fixtures.json_Unmarshal fixtures.IsEmailValid
              request_alan_oliver "test" mockDynamoDBClient_API) mock_empty_item)
    = [CallGetItem get_alan_oliver; CallPutItem (put_input alan_oliver "test")].
Proof.
  assert (Hv : fixtures.IsEmailValid (Email alan_oliver) = true) by (vm_compute; reflexivity).
  assert (Hp : PutItem mockDynamoDBClient_API (put_input alan_oliver "test") mock_empty_item
               = ((None, None), mock_empty_item)) by reflexivity.
  destruct (CreateUser_returns_parsed_record fixtures.json_Unmarshal fixtures.IsEmailValid
              request_alan_oliver "test" mockDynamoDBClient_API (World mock_empty_item [])
              alan_oliver new_User (World mock_empty_item [CallGetItem get_alan_oliver])
              None mock_empty_item) as [Hc Hl].
  - vm_compute; reflexivity.
  - exact Hv.
  - vm_compute; reflexivity.
  - reflexivity.
  - exact Hp.
  - split; [exact Hv|]. split; [exact Hp|]. unfold run. split.
    + rewrite Hc. reflexivity.
    + exact Hl.
Defined.


(** Deleting a record the table holds, deleting from the empty table, and
    deleting on a client whose DeleteItem fails. *)
Lemma DeleteUser_one_unconditional_delete_witness :
  run (user.DeleteUser request_query_email "test" memory_API) table_alan_oliver
    = (Val None, World ∅ [CallDeleteItem delete_alan_oliver]) /\
  run (user.DeleteUser request_query_email "test" memory_API) ∅
    = (Val None, World ∅ [CallDeleteItem delete_alan_oliver]) /\
  result (run (user.DeleteUser request_query_email "test" mockDynamoDBClient_API)
              mock_delete_fails)
    = Val (Some "failed to delete record").
Proof.
  split; [|split].
  - destruct (DeleteUser_one_unconditional_delete request_query_email "test" memory_API
                (World table_alan_oliver []) (Some mkDeleteItemOutput) None ∅)
      as [H _]; [vm_compute; reflexivity|].
    unfold run. rewrite H. reflexivity.
  - destruct (DeleteUser_one_unconditional_delete request_query_email "test" memory_API
                (World ∅ []) (Some mkDeleteItemOutput) None ∅)
      as [H _]; [vm_compute; reflexivity|].
    unfold run. rewrite H. reflexivity.
  - destruct (DeleteUser_one_unconditional_delete request_query_email "test"
                mockDynamoDBClient_API (World mock_delete_fails []) None
                (Some "delete error") mock_delete_fails eq_refl)
      as (_ & _ & _ & _ & H).
    apply H. discriminate.
Defined.

(** The guard of UpdateUser on the record FetchUser makes of an empty item. *)
Lemma update_guard_never_dereferences_nil_witness :
  user.update_guard (Some new_User) (World mock_empty_item [CallGetItem get_alan_oliver])
    = (Val false, World mock_empty_item [CallGetItem get_alan_oliver]) /\
  result (run (user.UpdateUser fixtures.json_Unmarshal request_alan_oliver "test"
                 mockDynamoDBClient_API) mock_empty_item) <> Panic.
Proof.
  destruct (update_guard_never_dereferences_nil fixtures.json_Unmarshal
              request_alan_oliver "test" mockDynamoDBClient_API (World mock_empty_item [])
              alan_oliver (Some new_User)
              (World mock_empty_item [CallGetItem get_alan_oliver])) as (_ & Hg & Hp).
  - vm_compute; reflexivity.
  - vm_compute; reflexivity.
  - split; [exact Hg | exact Hp].
Defined.

(** * Further behaviour of the service *)

Section ServiceBehaviour.

Variable json_Unmarshal : string -> User -> User * option error.
Variable IsEmailValid : string -> bool.
Context {St : Type}.
Implicit Types (dynaClient : DynamoDBAPI St) (w : world St) (u : User).
Implicit Types (req : events.APIGatewayProxyRequest).

Local Abbreviation CreateUser := (user.CreateUser json_Unmarshal IsEmailValid).
Local Abbreviation UpdateUser := (user.UpdateUser json_Unmarshal).

Lemma FetchUser_result email tableName dynaClient w :
  result (user.FetchUser email tableName dynaClient w)
  = fetch_answer (fst (GetItem dynaClient (mkGetItemInput (key_of email) tableName) (client w))).
Proof. rewrite FetchUser_eq. destruct (GetItem _ _ _) as [r st]. reflexivity. Qed.

Lemma fetch_answer_panic r : fetch_answer r = Panic <-> r = (None, None).
Proof.
  unfold fetch_answer. destruct r as [[out|] [e|]]; simpl;
    try destruct (dynamodbattribute.UnmarshalMap _ _) as [item [e'|]];
    split; congruence.
Qed.

(** The paths of CreateUser. *)
Lemma CreateUser_cases req tableName dynaClient w :
  (snd (json_Unmarshal (events.Body req) new_User) <> None /\
   CreateUser req tableName dynaClient w = (Val (None, Some user.ErrorInvalidUserData), w)) \/
  (exists u, json_Unmarshal (events.Body req) new_User = (u, None) /\
     IsEmailValid (Email u) = false /\
     CreateUser req tableName dynaClient w = (Val (None, Some user.ErrorInvalidEmail), w)) \/
  (exists u w1, json_Unmarshal (events.Body req) new_User = (u, None) /\
     IsEmailValid (Email u) = true /\
     user.FetchUser (Email u) tableName dynaClient w = (Panic, w1) /\
     CreateUser req tableName dynaClient w = (Panic, w1)) \/
  (exists u e w1, json_Unmarshal (events.Body req) new_User = (u, None) /\
     IsEmailValid (Email u) = true /\
     user.FetchUser (Email u) tableName dynaClient w = (Val (None, Some e), w1) /\
     CreateUser req tableName dynaClient w
       = (Val (None, Some user.ErrorFailedToFetchRecord), w1)) \/
  (exists u existingUser w1, json_Unmarshal (events.Body req) new_User = (u, None) /\
     IsEmailValid (Email u) = true /\
     user.FetchUser (Email u) tableName dynaClient w = (Val (Some existingUser, None), w1) /\
     Email existingUser <> "" /\
     CreateUser req tableName dynaClient w
       = (Val (None, Some user.ErrorUserAlreadyExists), w1)) \/
  (exists u existingUser w1, json_Unmarshal (events.Body req) new_User = (u, None) /\
     IsEmailValid (Email u) = true /\
     user.FetchUser (Email u) tableName dynaClient w = (Val (Some existingUser, None), w1) /\
     Email existingUser = "" /\
     CreateUser req tableName dynaClient w = save_step u tableName dynaClient w1).
Proof.
  destruct (json_Unmarshal (events.Body req) new_User) as [u err] eqn:Hu.
  destruct err as [e|].
  { left. split; [discriminate|].
    apply CreateUser_undecodable. rewrite Hu. discriminate. }
  destruct (IsEmailValid (Email u)) eqn:Hv.
  2:{ right; left. exists u. split; [first [reflexivity | assumption]|]. split; [exact Hv|].
      exact (CreateUser_invalid_email _ _ _ _ _ _ _ Hu Hv). }
  destruct (user.FetchUser (Email u) tableName dynaClient w) as [r w1] eqn:Hf.
  destruct r as [[p e]|].
  2:{ right; right; left. exists u, w1.
      split; [first [reflexivity | assumption]|]. split; [exact Hv|]. split; [first [reflexivity | assumption]|].
      exact (CreateUser_fetch_panic _ _ _ _ _ _ _ _ Hu Hv Hf). }
  destruct (FetchUser_answer _ _ _ _ _ _ _ Hf) as [[[ex ->] ->]|[-> He]].
  - pose proof (CreateUser_fetched _ _ _ _ _ _ _ _ _ Hu Hv Hf) as Hc.
    destruct (Nat.eqb (len (Email ex)) 0) eqn:Hl.
    + do 5 right. exists u, ex, w1.
      split; [first [reflexivity | assumption]|]. split; [exact Hv|]. split; [first [reflexivity | assumption]|].
      split; [apply len_zero; exact Hl | exact Hc].
    + do 4 right; left. exists u, ex, w1.
      split; [first [reflexivity | assumption]|]. split; [exact Hv|]. split; [first [reflexivity | assumption]|].
      split; [|exact Hc].
      intros Hempty. apply len_zero in Hempty. congruence.
  - assert (exists e', e = Some e') as [e' ->] by (destruct He as [->| ->]; eauto).
    do 3 right; left. exists u, e', w1.
    split; [first [reflexivity | assumption]|]. split; [exact Hv|]. split; [first [reflexivity | assumption]|].
    exact (CreateUser_fetch_error _ _ _ _ _ _ _ _ _ _ Hu Hv Hf).
Qed.

(** The paths of UpdateUser. *)
Lemma UpdateUser_cases req tableName dynaClient w :
  (snd (json_Unmarshal (events.Body req) new_User) <> None /\
   UpdateUser req tableName dynaClient w = (Val (None, Some user.ErrorInvalidUserData), w)) \/
  (exists u w1, json_Unmarshal (events.Body req) new_User = (u, None) /\
     user.FetchUser (Email u) tableName dynaClient w = (Panic, w1) /\
     UpdateUser req tableName dynaClient w = (Panic, w1)) \/
  (exists u e w1, json_Unmarshal (events.Body req) new_User = (u, None) /\
     user.FetchUser (Email u) tableName dynaClient w = (Val (None, Some e), w1) /\
     (e = user.ErrorFailedToFetchRecord \/ e = user.ErrorFailedToUnmarshalRecord) /\
     UpdateUser req tableName dynaClient w = (Val (None, Some e), w1)) \/
  (exists u existingUser w1, json_Unmarshal (events.Body req) new_User = (u, None) /\
     user.FetchUser (Email u) tableName dynaClient w = (Val (Some existingUser, None), w1) /\
     UpdateUser req tableName dynaClient w = save_step u tableName dynaClient w1).
Proof.
  destruct (json_Unmarshal (events.Body req) new_User) as [u err] eqn:Hu.
  destruct err as [e|].
  { left. split; [discriminate|].
    apply UpdateUser_undecodable. rewrite Hu. discriminate. }
  destruct (user.FetchUser (Email u) tableName dynaClient w) as [r w1] eqn:Hf.
  destruct r as [[p e]|].
  2:{ right; left. exists u, w1. split; [first [reflexivity | assumption]|]. split; [first [reflexivity | assumption]|].
      exact (UpdateUser_fetch_panic _ _ _ _ _ _ _ Hu Hf). }
  destruct (FetchUser_answer _ _ _ _ _ _ _ Hf) as [[[ex ->] ->]|[-> He]].
  - do 3 right. exists u, ex, w1. split; [first [reflexivity | assumption]|]. split; [first [reflexivity | assumption]|].
    exact (UpdateUser_fetched _ _ _ _ _ _ _ _ Hu Hf).
  - assert (exists e', e = Some e' /\
              (e' = user.ErrorFailedToFetchRecord \/ e' = user.ErrorFailedToUnmarshalRecord))
      as (e' & -> & He') by (destruct He as [->| ->]; eauto).
    do 2 right; left. exists u, e', w1.
    split; [first [reflexivity | assumption]|]. split; [first [reflexivity | assumption]|]. split; [exact He'|].
    exact (UpdateUser_fetch_error _ _ _ _ _ _ _ _ _ Hu Hf).
Qed.

(** X1. When the existence check of CreateUser lets the request through
    and the PutItem fails, CreateUser returns ErrorCouldNotDynamoPutItem
    whatever the error of the store was, and no record. *)
Theorem CreateUser_put_failure req tableName dynaClient w u existingUser w1 out e st :
  json_Unmarshal (events.Body req) new_User = (u, None) ->
  IsEmailValid (Email u) = true ->
  user.FetchUser (Email u) tableName dynaClient w = (Val (Some existingUser, None), w1) ->
  Email existingUser = "" ->
  PutItem dynaClient (put_input u tableName) (client w1) = ((out, Some e), st) ->
  CreateUser req tableName dynaClient w
  = (Val (None, Some user.ErrorCouldNotDynamoPutItem),
     logged w1 st (CallPutItem (put_input u tableName))).
Proof.
  intros Hu Hv Hf Hempty Hput.
  rewrite (CreateUser_fetched _ _ _ _ _ _ _ _ _ Hu Hv Hf).
  apply len_zero in Hempty. rewrite Hempty.
  unfold save_step. rewrite Hput. reflexivity.
Qed.

(** X2. When FetchUser returned a record and the PutItem of UpdateUser
    fails, UpdateUser returns ErrorCouldNotDynamoPutItem whatever the error
    of the store was, and no record. *)
Theorem UpdateUser_put_failure req tableName dynaClient w u existingUser w1 out e st :
  json_Unmarshal (events.Body req) new_User = (u, None) ->
  user.FetchUser (Email u) tableName dynaClient w = (Val (Some existingUser, None), w1) ->
  PutItem dynaClient (put_input u tableName) (client w1) = ((out, Some e), st) ->
  UpdateUser req tableName dynaClient w
  = (Val (None, Some user.ErrorCouldNotDynamoPutItem),
     logged w1 st (CallPutItem (put_input u tableName))).
Proof.
  intros Hu Hf Hput.
  rewrite (UpdateUser_fetched _ _ _ _ _ _ _ _ Hu Hf).
  unfold save_step. rewrite Hput. reflexivity.
Qed.

(** X3. CreateUser panics, or returns the record decoded from the body
    with no error, or returns no record and one of five errors; it never
    returns ErrorCouldNotMarshalItem or ErrorFailedToUnmarshalRecord. *)
Theorem CreateUser_outcomes req tableName dynaClient w :
  result (CreateUser req tableName dynaClient w) = Panic \/
  result (CreateUser req tableName dynaClient w)
    = Val (Some (fst (json_Unmarshal (events.Body req) new_User)), None) \/
  exists e,
    result (CreateUser req tableName dynaClient w) = Val (None, Some e) /\
    In e [user.ErrorInvalidUserData; user.ErrorInvalidEmail; user.ErrorFailedToFetchRecord;
          user.ErrorUserAlreadyExists; user.ErrorCouldNotDynamoPutItem].
Proof.
  destruct (CreateUser_cases req tableName dynaClient w)
    as [[_ ->]|[(u & _ & _ & ->)|[(u & w1 & _ & _ & _ & ->)|[(u & e & w1 & _ & _ & _ & ->)
       |[(u & ex & w1 & _ & _ & _ & _ & ->)|(u & ex & w1 & Hu & _ & _ & _ & ->)]]]]].
  - right; right. eexists. split; [reflexivity|]. simpl. auto.
  - right; right. eexists. split; [reflexivity|]. simpl. auto.
  - left. reflexivity.
  - right; right. eexists. split; [reflexivity|]. simpl. auto.
  - right; right. eexists. split; [reflexivity|]. simpl. auto.
  - rewrite Hu; simpl.
    destruct (save_step_result u tableName dynaClient w1) as [H|H]; rewrite H.
    + right; left. reflexivity.
    + right; right. eexists. split; [reflexivity|]. simpl. auto 6.
Qed.

(** X4. UpdateUser panics, or returns the record decoded from the body
    with no error, or returns no record and one of four errors; it never
    returns ErrorUserAlreadyExists, ErrorInvalidEmail or
    ErrorCouldNotMarshalItem. *)
Theorem UpdateUser_outcomes req tableName dynaClient w :
  result (UpdateUser req tableName dynaClient w) = Panic \/
  result (UpdateUser req tableName dynaClient w)
    = Val (Some (fst (json_Unmarshal (events.Body req) new_User)), None) \/
  exists e,
    result (UpdateUser req tableName dynaClient w) = Val (None, Some e) /\
    In e [user.ErrorInvalidUserData; user.ErrorFailedToFetchRecord;
          user.ErrorFailedToUnmarshalRecord; user.ErrorCouldNotDynamoPutItem].
Proof.
  destruct (UpdateUser_cases req tableName dynaClient w)
    as [[_ ->]|[(u & w1 & _ & _ & ->)|[(u & e & w1 & _ & _ & He & ->)
       |(u & ex & w1 & Hu & _ & ->)]]].
  - right; right. eexists. split; [reflexivity|]. simpl. auto.
  - left. reflexivity.
  - right; right. exists e. split; [reflexivity|]. simpl. destruct He as [->| ->]; auto.
  - rewrite Hu; simpl.
    destruct (save_step_result u tableName dynaClient w1) as [H|H]; rewrite H.
    + right; left. reflexivity.
    + right; right. eexists. split; [reflexivity|]. simpl. auto 6.
Qed.

(** X5. When the body decodes and the GetItem of the existence check
    returns neither an output nor an error, UpdateUser panics on the nil
    output, after that one call; so does CreateUser when the email passes
    the format check. *)
Theorem service_panics_on_nil_output req tableName dynaClient w u st :
  json_Unmarshal (events.Body req) new_User = (u, None) ->
  GetItem dynaClient (mkGetItemInput (key_of (Email u)) tableName) (client w)
    = ((None, None), st) ->
  UpdateUser req tableName dynaClient w
    = (Panic, logged w st (CallGetItem (mkGetItemInput (key_of (Email u)) tableName))) /\
  (IsEmailValid (Email u) = true ->
   CreateUser req tableName dynaClient w
     = (Panic, logged w st (CallGetItem (mkGetItemInput (key_of (Email u)) tableName)))).
Proof.
  intros Hu Hg.
  assert (Hf : user.FetchUser (Email u) tableName dynaClient w
               = (Panic, logged w st (CallGetItem (mkGetItemInput (key_of (Email u)) tableName)))).
  { rewrite FetchUser_eq, Hg. reflexivity. }
  split.
  - exact (UpdateUser_fetch_panic _ _ _ _ _ _ _ Hu Hf).
  - intros Hv. exact (CreateUser_fetch_panic _ _ _ _ _ _ _ _ Hu Hv Hf).
Qed.

(** X6. The store calls of CreateUser are none, or the GetItem of the
    existence check, or that GetItem followed by the PutItem of the
    decoded record; the PutItem is made exactly when the body decodes, the
    email passes the format check and FetchUser returns, without error, a
    record whose Email is empty. *)
Theorem CreateUser_call_protocol req tableName dynaClient w :
  let u := fst (json_Unmarshal (events.Body req) new_User) in
  let get := CallGetItem (mkGetItemInput (key_of (Email u)) tableName) in
  let put := CallPutItem (put_input u tableName) in
  exists new,
    log (CreateUser req tableName dynaClient w) = (calls w ++ new)%list /\
    (new = [] \/ new = [get] \/ new = [get; put]) /\
    (new = [get; put] <->
     snd (json_Unmarshal (events.Body req) new_User) = None /\
     IsEmailValid (Email u) = true /\
     exists existingUser,
       result (user.FetchUser (Email u) tableName dynaClient w)
       = Val (Some existingUser, None) /\ Email existingUser = "").
Proof.
  cbv zeta.
  destruct (CreateUser_cases req tableName dynaClient w)
    as [[Herr H]|[(u & Hu & Hv & H)|[(u & w1 & Hu & Hv & Hf & H)
       |[(u & e & w1 & Hu & Hv & Hf & H)|[(u & ex & w1 & Hu & Hv & Hf & Hne & H)
       |(u & ex & w1 & Hu & Hv & Hf & Hempty & H)]]]]];
    rewrite H; try rewrite Hu; simpl.
  - exists []. split; [unfold log; simpl; rewrite app_nil_r; reflexivity|].
    split; [auto|]. split; [discriminate|]. intros [Hn _]. contradiction.
  - exists []. split; [unfold log; simpl; rewrite app_nil_r; reflexivity|].
    split; [auto|]. split; [discriminate|]. intros (_ & Hv' & _). congruence.
  - eexists [_]. split; [exact (FetchUser_log _ _ _ _ _ _ Hf)|].
    split; [auto|]. split; [discriminate|].
    intros (_ & _ & ex & Hex & _). rewrite Hf in Hex. discriminate.
  - eexists [_]. split; [exact (FetchUser_log _ _ _ _ _ _ Hf)|].
    split; [auto|]. split; [discriminate|].
    intros (_ & _ & ex & Hex & _). rewrite Hf in Hex. discriminate.
  - eexists [_]. split; [exact (FetchUser_log _ _ _ _ _ _ Hf)|].
    split; [auto|]. split; [discriminate|].
    intros (_ & _ & ex' & Hex & Hempty). rewrite Hf in Hex.
    unfold result in Hex; simpl in Hex. congruence.
  - eexists [_; _]. split.
    + rewrite save_step_log, (FetchUser_log _ _ _ _ _ _ Hf), <- app_assoc. reflexivity.
    + split; [auto|]. split; [|reflexivity].
      intros _. split; [reflexivity|]. split; [exact Hv|].
      exists ex. rewrite Hf. split; [reflexivity | exact Hempty].
Qed.

(** X7. The store calls of UpdateUser are none, or the GetItem of the
    existence check, or that GetItem followed by the PutItem of the
    decoded record; the PutItem is made exactly when the body decodes and
    FetchUser returns a record without error. *)
Theorem UpdateUser_call_protocol req tableName dynaClient w :
  let u := fst (json_Unmarshal (events.Body req) new_User) in
  let get := CallGetItem (mkGetItemInput (key_of (Email u)) tableName) in
  let put := CallPutItem (put_input u tableName) in
  exists new,
    log (UpdateUser req tableName dynaClient w) = (calls w ++ new)%list /\
    (new = [] \/ new = [get] \/ new = [get; put]) /\
    (new = [get; put] <->
     snd (json_Unmarshal (events.Body req) new_User) = None /\
     exists existingUser,
       result (user.FetchUser (Email u) tableName dynaClient w)
       = Val (Some existingUser, None)).
Proof.
  cbv zeta.
  destruct (UpdateUser_cases req tableName dynaClient w)
    as [[Herr H]|[(u & w1 & Hu & Hf & H)|[(u & e & w1 & Hu & Hf & _ & H)
       |(u & ex & w1 & Hu & Hf & H)]]];
    rewrite H; try rewrite Hu; simpl.
  - exists []. split; [unfold log; simpl; rewrite app_nil_r; reflexivity|].
    split; [auto|]. split; [discriminate|]. intros [Hn _]. contradiction.
  - eexists [_]. split; [exact (FetchUser_log _ _ _ _ _ _ Hf)|].
    split; [auto|]. split; [discriminate|].
    intros (_ & ex & Hex). rewrite Hf in Hex. discriminate.
  - eexists [_]. split; [exact (FetchUser_log _ _ _ _ _ _ Hf)|].
    split; [auto|]. split; [discriminate|].
    intros (_ & ex & Hex). rewrite Hf in Hex. discriminate.
  - eexists [_; _]. split.
    + rewrite save_step_log, (FetchUser_log _ _ _ _ _ _ Hf), <- app_assoc. reflexivity.
    + split; [auto|]. split; [|reflexivity].
      intros _. split; [reflexivity|]. exists ex. rewrite Hf. reflexivity.
Qed.

(** X8. For a body that decodes to a valid email, when FetchUser returns a
    record whose Email is empty, CreateUser and UpdateUser do the same:
    same result, same calls, same state of the client. *)
Theorem CreateUser_eq_UpdateUser_when_absent req tableName dynaClient w u existingUser w1 :
  json_Unmarshal (events.Body req) new_User = (u, None) ->
  IsEmailValid (Email u) = true ->
  user.FetchUser (Email u) tableName dynaClient w = (Val (Some existingUser, None), w1) ->
  Email existingUser = "" ->
  CreateUser req tableName dynaClient w = UpdateUser req tableName dynaClient w.
Proof.
  intros Hu Hv Hf Hempty.
  rewrite (CreateUser_fetched _ _ _ _ _ _ _ _ _ Hu Hv Hf),
          (UpdateUser_fetched _ _ _ _ _ _ _ _ Hu Hf).
  apply len_zero in Hempty. rewrite Hempty. reflexivity.
Qed.

End ServiceBehaviour.

(** * Further behaviour of the reads and of DeleteUser *)

Section StoreBehaviour.

Context {St : Type}.
Implicit Types (dynaClient : DynamoDBAPI St) (w : world St).
Implicit Types (req : events.APIGatewayProxyRequest).

Lemma FetchAllUsers_cases tableName dynaClient w :
  result (user.FetchAllUsers tableName dynaClient w) = Panic /\
    fst (Scan dynaClient (mkScanInput tableName) (client w)) = (None, None) \/
  (exists users, result (user.FetchAllUsers tableName dynaClient w) = Val (Some users, None)) \/
  result (user.FetchAllUsers tableName dynaClient w)
    = Val (None, Some user.ErrorFailedToFetchRecord) \/
  result (user.FetchAllUsers tableName dynaClient w)
    = Val (None, Some user.ErrorFailedToUnmarshalRecord).
Proof.
  rewrite FetchAllUsers_eq.
  destruct (Scan _ _ _) as [[out err] st]; unfold result; simpl.
  destruct err as [e|]; [auto|].
  destruct out as [out|]; [|auto].
  destruct (dynamodbattribute.UnmarshalListOfMaps _ _) as [item [e|]]; eauto.
Qed.

(** X9. FetchUser makes exactly one store call, the GetItem of the key,
    and FetchAllUsers exactly one, the Scan of the table, whatever the
    outcome; each either panics, or returns a value and no error, or no
    value and ErrorFailedToFetchRecord or ErrorFailedToUnmarshalRecord. *)
Theorem fetch_outcomes email tableName dynaClient w :
  (log (user.FetchUser email tableName dynaClient w)
     = (calls w ++ [CallGetItem (mkGetItemInput (key_of email) tableName)])%list /\
   (result (user.FetchUser email tableName dynaClient w) = Panic \/
    (exists item, result (user.FetchUser email tableName dynaClient w)
                  = Val (Some item, None)) \/
    result (user.FetchUser email tableName dynaClient w)
      = Val (None, Some user.ErrorFailedToFetchRecord) \/
    result (user.FetchUser email tableName dynaClient w)
      = Val (None, Some user.ErrorFailedToUnmarshalRecord))) /\
  (log (user.FetchAllUsers tableName dynaClient w)
     = (calls w ++ [CallScan (mkScanInput tableName)])%list /\
   (result (user.FetchAllUsers tableName dynaClient w) = Panic \/
    (exists users, result (user.FetchAllUsers tableName dynaClient w)
                   = Val (Some users, None)) \/
    result (user.FetchAllUsers tableName dynaClient w)
      = Val (None, Some user.ErrorFailedToFetchRecord) \/
    result (user.FetchAllUsers tableName dynaClient w)
      = Val (None, Some user.ErrorFailedToUnmarshalRecord))).
Proof.
  split; split.
  - destruct (user.FetchUser email tableName dynaClient w) as [r w1] eqn:Hf.
    exact (FetchUser_log _ _ _ _ _ _ Hf).
  - destruct (user.FetchUser email tableName dynaClient w) as [r w1] eqn:Hf.
    destruct r as [[p e]|]; [|auto].
    destruct (FetchUser_answer _ _ _ _ _ _ _ Hf) as [[[item ->] ->]|[-> [->| ->]]]; eauto.
  - rewrite FetchAllUsers_eq. destruct (Scan _ _ _) as [r st]. reflexivity.
  - destruct (FetchAllUsers_cases tableName dynaClient w) as [[H _]|H]; auto.
Qed.

(** X10. Once GetItem has returned, FetchUser panics if it returned
    neither an output nor an error, and does not panic otherwise; once Scan
    has returned, the same holds of FetchAllUsers. *)
Theorem fetch_panics_on_nil_output email tableName dynaClient w rg sg rs ss :
  GetItem dynaClient (mkGetItemInput (key_of email) tableName) (client w) = (rg, sg) ->
  Scan dynaClient (mkScanInput tableName) (client w) = (rs, ss) ->
  (rg = (None, None) ->
   user.FetchUser email tableName dynaClient w
     = (Panic, logged w sg (CallGetItem (mkGetItemInput (key_of email) tableName)))) /\
  (rg <> (None, None) ->
   result (user.FetchUser email tableName dynaClient w) <> Panic) /\
  (rs = (None, None) ->
   user.FetchAllUsers tableName dynaClient w
     = (Panic, logged w ss (CallScan (mkScanInput tableName)))) /\
  (rs <> (None, None) ->
   result (user.FetchAllUsers tableName dynaClient w) <> Panic).
Proof.
  intros Hg Hs. split; [|split; [|split]].
  - intros ->. rewrite FetchUser_eq, Hg. reflexivity.
  - intros Hne Hp. apply Hne. rewrite FetchUser_result, Hg in Hp.
    apply fetch_answer_panic in Hp. exact Hp.
  - intros ->. rewrite FetchAllUsers_eq, Hs. reflexivity.
  - intros Hne. rewrite FetchAllUsers_eq, Hs. unfold result; simpl.
    destruct rs as [[out|] [e|]]; simpl; try discriminate; [|congruence].
    destruct (dynamodbattribute.UnmarshalListOfMaps _ _) as [item [e|]]; discriminate.
Qed.

(** X11. When GetItem answers with the item the save step of CreateUser
    and UpdateUser writes for a record, FetchUser returns that record,
    empty fields included. *)
Theorem FetchUser_reads_back_saved_record u email tableName savedTable dynaClient w out st :
  GetItem dynaClient (mkGetItemInput (key_of email) tableName) (client w)
    = ((Some out, None), st) ->
  GetItemOutput_Item out = PutItemInput_Item (put_input u savedTable) ->
  user.FetchUser email tableName dynaClient w
  = (Val (Some u, None), logged w st (CallGetItem (mkGetItemInput (key_of email) tableName))).
Proof.
  intros Hg Hitem. rewrite FetchUser_eq, Hg. unfold fetch_answer. cbn [fst snd].
  rewrite Hitem.
  change (PutItemInput_Item (put_input u savedTable))
    with (fst (dynamodbattribute.MarshalMap u)).
  rewrite UnmarshalMap_MarshalMap. reflexivity.
Qed.

Lemma Forall2_saved (users : list User) (savedTable : string) :
  Forall2 (fun item u => dynamodbattribute.UnmarshalMap item new_User = (u, None))
          (map (fun u => PutItemInput_Item (put_input u savedTable)) users) users.
Proof.
  induction users as [|u users IH]; simpl; constructor; [|exact IH].
  exact (UnmarshalMap_MarshalMap u).
Qed.

(** X12. When Scan answers with the items the save step writes for a list
    of records, FetchAllUsers returns those records, in that order, empty
    fields included. *)
Theorem FetchAllUsers_reads_back_saved_records
    (users : list User) tableName savedTable dynaClient w out st :
  Scan dynaClient (mkScanInput tableName) (client w) = ((Some out, None), st) ->
  ScanOutput_Items out = map (fun u => PutItemInput_Item (put_input u savedTable)) users ->
  user.FetchAllUsers tableName dynaClient w
  = (Val (Some users, None), logged w st (CallScan (mkScanInput tableName))).
Proof.
  intros Hs Hitems. rewrite FetchAllUsers_eq, Hs; simpl.
  rewrite Hitems, UnmarshalListOfMaps_decodeList,
    (decodeList_Forall2 _ _ (Forall2_saved users savedTable)).
  reflexivity.
Qed.

(** X13. DeleteUser reads the email from the query string only: on a
    request without an [email] query parameter, whatever its path
    parameters and its body, the one call it makes is the DeleteItem of the
    empty key. *)
Theorem DeleteUser_without_email_parameter req tableName dynaClient w :
  events.QueryStringParameters req !! "email" = None ->
  log (user.DeleteUser req tableName dynaClient w)
  = (calls w ++ [CallDeleteItem (mkDeleteItemInput (key_of "") tableName)])%list.
Proof.
  intros Hq. unfold user.DeleteUser, call_DeleteItem, bind, log, key_of, map_index.
  rewrite Hq; simpl.
  destruct (DeleteItem _ _ _) as [[out [e|]] st]; reflexivity.
Qed.

End StoreBehaviour.

(** * Further behaviour of the handlers *)

Section HandlerBehaviour.

Variable apiResponse
  : Z -> handlers.payload -> option handlers.APIGatewayProxyResponse * option error.
Variable json_Unmarshal : string -> User -> User * option error.
Variable IsEmailValid : string -> bool.
Context {St : Type}.
Implicit Types (dynaClient : DynamoDBAPI St) (w : world St).
Implicit Types (req : events.APIGatewayProxyRequest).

(** X14. GetUser of package handlers makes exactly one store call: the
    Scan of the table when the request has no [email] query parameter or
    an empty one, the GetItem of that email otherwise. *)
Theorem GetUser_dispatch req tableName dynaClient w :
  log (handlers.GetUser apiResponse req tableName dynaClient w)
  = (calls w ++ [GetUser_call req tableName])%list.
Proof.
  unfold handlers.GetUser, GetUser_call, log, bind.
  destruct (len (map_index (events.QueryStringParameters req) "email")) as [|n]; simpl.
  - pose proof (FetchAllUsers_eq tableName dynaClient w) as H.
    destruct (user.FetchAllUsers tableName dynaClient w) as [[[p [e|]]|] w1];
      destruct (Scan _ _ _) as [r st]; inversion H; reflexivity.
  - destruct (user.FetchUser _ tableName dynaClient w) as [r w1] eqn:Hf.
    pose proof (FetchUser_log _ _ _ _ _ _ Hf) as Hl.
    destruct r as [[p [e|]]|]; exact Hl.
Qed.


(** X16. On a body that does not decode, the handlers CreateUser and
    UpdateUser answer with status 500 and the message of
    ErrorInvalidUserData, and never touch the client. *)
Theorem handlers_reject_undecodable req tableName dynaClient w :
  snd (json_Unmarshal (events.Body req) new_User) <> None ->
  handlers.CreateUser apiResponse json_Unmarshal IsEmailValid req tableName dynaClient w
    = (Val (apiResponse 500%Z
              (handlers.body_error (handlers.mkErrorBody (Some "invalid user data")))), w) /\
  handlers.UpdateUser apiResponse json_Unmarshal req tableName dynaClient w
    = (Val (apiResponse 500%Z
              (handlers.body_error (handlers.mkErrorBody (Some "invalid user data")))), w).
Proof.
  intros Herr. unfold handlers.CreateUser, handlers.UpdateUser, bind.
  rewrite (CreateUser_undecodable _ _ _ _ _ _ Herr),
          (UpdateUser_undecodable _ _ _ _ _ Herr).
  split; reflexivity.
Qed.

(** X17. When the body decodes to a valid email, FetchUser returns a
    record with an empty Email and the PutItem succeeds, the handler
    CreateUser answers with status 201 and the decoded record. *)
Theorem handlers_CreateUser_created req tableName dynaClient w u existingUser w1 out st :
  json_Unmarshal (events.Body req) new_User = (u, None) ->
  IsEmailValid (Email u) = true ->
  user.FetchUser (Email u) tableName dynaClient w = (Val (Some existingUser, None), w1) ->
  Email existingUser = "" ->
  PutItem dynaClient (put_input u tableName) (client w1) = ((out, None), st) ->
  result (handlers.CreateUser apiResponse json_Unmarshal IsEmailValid
            req tableName dynaClient w)
  = Val (apiResponse 201%Z (handlers.body_user (Some u))).
Proof.
  intros Hu Hv Hf Hempty Hput. unfold handlers.CreateUser, bind, result.
  rewrite (CreateUser_fetched _ _ _ _ _ _ _ _ _ Hu Hv Hf).
  apply len_zero in Hempty. rewrite Hempty.
  unfold save_step. rewrite Hput. reflexivity.
Qed.

(** X18. When the body decodes and FetchUser finds a record whose Email is
    not empty, the handler CreateUser answers with status 500 and the
    message of ErrorUserAlreadyExists, and the handler UpdateUser, if its
    PutItem succeeds, with status 200 and the decoded record. *)
Theorem handlers_on_existing_record req tableName dynaClient w u existingUser w1 out st :
  json_Unmarshal (events.Body req) new_User = (u, None) ->
  IsEmailValid (Email u) = true ->
  user.FetchUser (Email u) tableName dynaClient w = (Val (Some existingUser, None), w1) ->
  Email existingUser <> "" ->
  PutItem dynaClient (put_input u tableName) (client w1) = ((out, None), st) ->
  result (handlers.CreateUser apiResponse json_Unmarshal IsEmailValid
            req tableName dynaClient w)
    = Val (apiResponse 500%Z
             (handlers.body_error (handlers.mkErrorBody (Some "user already exists")))) /\
  result (handlers.UpdateUser apiResponse json_Unmarshal req tableName dynaClient w)
    = Val (apiResponse 200%Z (handlers.body_user (Some u))).
Proof.
  intros Hu Hv Hf Hne Hput. unfold handlers.CreateUser, handlers.UpdateUser, bind, result.
  rewrite (CreateUser_fetched _ _ _ _ _ _ _ _ _ Hu Hv Hf),
          (UpdateUser_fetched _ _ _ _ _ _ _ _ Hu Hf).
  destruct (Nat.eqb (len (Email existingUser)) 0) eqn:Hl.
  { apply len_zero in Hl. contradiction. }
  unfold save_step. rewrite Hput. split; reflexivity.
Qed.

(** X19. For an email the store holds nothing for (GetItem succeeds with an
    empty item), the handler GetUser answers with status 200 and the record
    whose fields are all empty. *)
Theorem handlers_GetUser_absent_record req tableName dynaClient w out st :
  map_index (events.QueryStringParameters req) "email" <> "" ->
  GetItem dynaClient
    (mkGetItemInput (key_of (map_index (events.QueryStringParameters req) "email")) tableName)
    (client w) = ((Some out, None), st) ->
  GetItemOutput_Item out = ∅ ->
  result (handlers.GetUser apiResponse req tableName dynaClient w)
  = Val (apiResponse 200%Z (handlers.body_user (Some (mkUser "" "" "")))).
Proof.
  intros Hne Hg Hempty. unfold handlers.GetUser, bind, result.
  destruct (map_index (events.QueryStringParameters req) "email") as [|c email] eqn:He;
    [contradiction|]. simpl.
  rewrite FetchUser_eq, Hg. unfold fetch_answer; simpl.
  rewrite Hempty, UnmarshalMap_empty. reflexivity.
Qed.

End HandlerBehaviour.

(** ** The further theorems at the requests of the test suite *)

(** TestCreateUser, "expect error when creating user fails". *)
Lemma CreateUser_put_failure_witness :
  PutItem mockDynamoDBClient_API (put_input alan_oliver "test") mock_put_fails
    = ((None, Some "test error"), mock_put_fails) /\
  result (run (user.CreateUser fixtures.json_Unmarshal fixtures.IsEmailValid
                 request_alan_oliver "test" mockDynamoDBClient_API) mock_put_fails)
    = Val (None, Some "could not update record").
Proof.
  split; [reflexivity|]. unfold run.
  rewrite (CreateUser_put_failure fixtures.json_Unmarshal fixtures.IsEmailValid
             request_alan_oliver "test" mockDynamoDBClient_API (World mock_put_fails [])
             alan_oliver new_User (World mock_put_fails [CallGetItem get_alan_oliver])
             None "test error" mock_put_fails).
  - reflexivity.
  - vm_compute; reflexivity.
  - vm_compute; reflexivity.
  - vm_compute; reflexivity.
  - reflexivity.
  - reflexivity.
Defined.

(** TestUpdate, "expect error when there is an error updating the user". *)
Lemma UpdateUser_put_failure_witness :
  result (run (user.UpdateUser fixtures.json_Unmarshal
                 request_alan_oliver "test" mockDynamoDBClient_API) mock_put_fails)
    = Val (None, Some "could not update record").
Proof.
  unfold run.
  rewrite (UpdateUser_put_failure fixtures.json_Unmarshal
             request_alan_oliver "test" mockDynamoDBClient_API (World mock_put_fails [])
             alan_oliver new_User (World mock_put_fails [CallGetItem get_alan_oliver])
             None "test error" mock_put_fails).
  - reflexivity.
  - vm_compute; reflexivity.
  - vm_compute; reflexivity.
  - reflexivity.
Defined.

(** Creating and updating a record the store does not hold. *)
Lemma CreateUser_eq_UpdateUser_when_absent_witness :
  run (user.CreateUser fixtures.json_Unmarshal fixtures.IsEmailValid
         request_alan_oliver "test" mockDynamoDBClient_API) mock_empty_item
  = run (user.UpdateUser fixtures.json_Unmarshal
           request_alan_oliver "test" mockDynamoDBClient_API) mock_empty_item.
Proof.
  apply (CreateUser_eq_UpdateUser_when_absent fixtures.json_Unmarshal fixtures.IsEmailValid
           request_alan_oliver "test" mockDynamoDBClient_API (World mock_empty_item [])
           alan_oliver new_User (World mock_empty_item [CallGetItem get_alan_oliver])).
  - vm_compute; reflexivity.
  - vm_compute; reflexivity.
  - vm_compute; reflexivity.
  - reflexivity.
Defined.

(** Reading back a saved record whose first name is empty. *)
Lemma FetchUser_reads_back_saved_record_witness :
  result (run (user.FetchUser "a@b.co" "test" mockDynamoDBClient_API) mock_saved)
  = Val (Some (mkUser "a@b.co" "" "B"), None).
Proof.
  unfold run.
  rewrite (FetchUser_reads_back_saved_record no_first_name "a@b.co" "test" "test"
             mockDynamoDBClient_API (World mock_saved [])
             (mkGetItemOutput (PutItemInput_Item (put_input no_first_name "test")))
             mock_saved eq_refl eq_refl).
  reflexivity.
Defined.

(** Scanning two saved records. *)
Lemma FetchAllUsers_reads_back_saved_records_witness :
  result (run (user.FetchAllUsers "test" mockDynamoDBClient_API) mock_scan_saved)
  = Val (Some [no_first_name; alan_oliver], None).
Proof.
  unfold run.
  rewrite (FetchAllUsers_reads_back_saved_records [no_first_name; alan_oliver]
             "test" "test" mockDynamoDBClient_API (World mock_scan_saved [])
             (mkScanOutput (map (fun u => PutItemInput_Item (put_input u "test"))
                                [no_first_name; alan_oliver]))
             mock_scan_saved eq_refl eq_refl).
  reflexivity.
Defined.

(** TestDeleteUser, "expect to delete the user": the email is given as a
    path parameter, and the key that is deleted is the empty one. *)
Lemma DeleteUser_without_email_parameter_witness :
  log (run (user.DeleteUser request_path_email "test" mockDynamoDBClient_API) mockDb)
  = [CallDeleteItem (mkDeleteItemInput (key_of "") "test")].
Proof.
  apply (DeleteUser_without_email_parameter request_path_email "test"
           mockDynamoDBClient_API (World mockDb [])).
  reflexivity.
Defined.

(** handlers_test.go, "should return a 500 error response when the request
    body is invalid". *)
Lemma handlers_reject_undecodable_witness :
  status_of (run (handlers.CreateUser plain_response fixtures.json_Unmarshal
                    fixtures.IsEmailValid request_malformed "test" mockDynamoDBClient_API)
                 mockDb) = Some 500%Z /\
  status_of (run (handlers.UpdateUser plain_response fixtures.json_Unmarshal
                    request_malformed "test" mockDynamoDBClient_API)
                 mockDb) = Some 500%Z.
Proof.
  destruct (handlers_reject_undecodable plain_response fixtures.json_Unmarshal
              fixtures.IsEmailValid request_malformed "test" mockDynamoDBClient_API
              (World mockDb [])) as [Hc Hu].
  - vm_compute. discriminate.
  - unfold run, status_of, result. rewrite Hc, Hu. split; reflexivity.
Defined.

(** handlers_test.go, "should return a 201 response when the request body
    is valid". *)
Lemma handlers_CreateUser_created_witness :
  result (run (handlers.CreateUser plain_response fixtures.json_Unmarshal
                 fixtures.IsEmailValid request_alan_oliver "test" mockDynamoDBClient_API)
              mock_empty_item)
  = Val (Some (handlers.mkResponse 201 {[ "Application-Type" := "application/json" ]}
                 (marshal_user alan_oliver)), None).
Proof.
  unfold run.
  rewrite (handlers_CreateUser_created plain_response fixtures.json_Unmarshal
             fixtures.IsEmailValid request_alan_oliver "test" mockDynamoDBClient_API
             (World mock_empty_item []) alan_oliver new_User
             (World mock_empty_item [CallGetItem get_alan_oliver]) None mock_empty_item).
  - reflexivity.
  - vm_compute; reflexivity.
  - vm_compute; reflexivity.
  - vm_compute; reflexivity.
  - reflexivity.
  - reflexivity.
Defined.

(** Creating and updating a record the store holds. *)
Lemma handlers_on_existing_record_witness :
  status_of (run (handlers.CreateUser plain_response fixtures.json_Unmarshal
                    fixtures.IsEmailValid request_alan_oliver "test" mockDynamoDBClient_API)
                 mock_existing) = Some 500%Z /\
  status_of (run (handlers.UpdateUser plain_response fixtures.json_Unmarshal
                    request_alan_oliver "test" mockDynamoDBClient_API)
                 mock_existing) = Some 200%Z.
Proof.
  destruct (handlers_on_existing_record plain_response fixtures.json_Unmarshal
              fixtures.IsEmailValid request_alan_oliver "test" mockDynamoDBClient_API
              (World mock_existing []) alan_oliver al_oliver
              (World mock_existing [CallGetItem get_alan_oliver]) None mock_existing)
    as [Hc Hu].
  - vm_compute; reflexivity.
  - vm_compute; reflexivity.
  - vm_compute; reflexivity.
  - discriminate.
  - reflexivity.
  - unfold run, status_of. rewrite Hc, Hu. split; reflexivity.
Defined.

(** Fetching a record the store does not hold. *)
Lemma handlers_GetUser_absent_record_witness :
  result (run (handlers.GetUser plain_response request_query_email "test"
                 mockDynamoDBClient_API) mock_empty_item)
  = Val (Some (handlers.mkResponse 200 {[ "Application-Type" := "application/json" ]}
                 (marshal_user new_User)), None).
Proof.
  unfold run.
  rewrite (handlers_GetUser_absent_record plain_response request_query_email "test"
             mockDynamoDBClient_API (World mock_empty_item []) (mkGetItemOutput ∅)
             mock_empty_item).
  - reflexivity.
  - vm_compute. discriminate.
  - vm_compute; reflexivity.
  - reflexivity.
Defined.

(** The service on a client that answers GetItem with nothing at all. *)
Lemma service_panics_on_nil_output_witness :
  GetItem mockDynamoDBClient_API get_alan_oliver mockDb = ((None, None), mockDb) /\
  result (run (user.UpdateUser fixtures.json_Unmarshal request_alan_oliver "test"
                 mockDynamoDBClient_API) mockDb) = Panic /\
  result (run (user.CreateUser fixtures.json_Unmarshal fixtures.IsEmailValid
                 request_alan_oliver "test" mockDynamoDBClient_API) mockDb) = Panic.
Proof.
  destruct (service_panics_on_nil_output fixtures.json_Unmarshal fixtures.IsEmailValid
              request_alan_oliver "test" mockDynamoDBClient_API (World mockDb [])
              alan_oliver mockDb) as [Hu Hc].
  - vm_compute; reflexivity.
  - reflexivity.
  - split; [reflexivity|]. unfold run. split.
    + rewrite Hu. reflexivity.
    + rewrite Hc; [reflexivity | vm_compute; reflexivity].
Defined.

(** The reads on a client that answers with nothing at all, and on one that
    answers GetItem with an empty item. *)
Lemma fetch_panics_on_nil_output_witness :
  result (run (user.FetchUser "a@b.co" "test" mockDynamoDBClient_API) mockDb) = Panic /\
  result (run (user.FetchAllUsers "test" mockDynamoDBClient_API) mockDb) = Panic /\
  result (run (user.FetchUser "a@b.co" "test" mockDynamoDBClient_API) mock_empty_item)
    <> Panic /\
  result (run (user.FetchAllUsers "test" mockDynamoDBClient_API) mock_scan_two) <> Panic.
Proof.
  destruct (fetch_panics_on_nil_output "a@b.co" "test" mockDynamoDBClient_API
              (World mockDb []) (None, None) mockDb (None, None) mockDb eq_refl eq_refl)
    as (Hg & _ & Hs & _).
  destruct (fetch_panics_on_nil_output "a@b.co" "test" mockDynamoDBClient_API
              (World mock_empty_item []) (Some (mkGetItemOutput ∅), None) mock_empty_item
              (None, None) mock_empty_item eq_refl eq_refl)
    as (_ & Hg' & _ & _).
  destruct (fetch_panics_on_nil_output "a@b.co" "test" mockDynamoDBClient_API
              (World mock_scan_two []) (None, None) mock_scan_two
              (scanRes mock_scan_two, None) mock_scan_two eq_refl eq_refl)
    as (_ & _ & _ & Hs').
  unfold run. split; [rewrite (Hg eq_refl); reflexivity|].
  split; [rewrite (Hs eq_refl); reflexivity|].
  split; [apply Hg'; discriminate | apply Hs'; discriminate].
Defined.

(** An attribute name that differs from a field's by letter case is decoded
    into that field, and its type is checked like any other's. *)
Example FetchAllUsers_capitalised_name :
  result (run (user.FetchAllUsers "test" mockDynamoDBClient_API)
              (mkMock None None None None
                 (Some (mkScanOutput [ {[ "Email" := S "x@y.zz" ]} ])) None))
    = Val (Some [mkUser "x@y.zz" "" ""], None) /\
  result (run (user.FetchAllUsers "test" mockDynamoDBClient_API)
              (mkMock None None None None
                 (Some (mkScanOutput [ {[ "Email" := BOOL true ]} ])) None))
    = Val (None, Some "failed to unmarshal record").
Proof. split; vm_compute; reflexivity. Qed.

(** The decoder of the examples on the empty object, on [null], on a key
    in capitals and on a literal holding a tab. *)
Example json_Unmarshal_edge_cases :
  fixtures.json_Unmarshal "{}" new_User = (new_User, None) /\
  fixtures.json_Unmarshal " null " new_User = (new_User, None) /\
  fst (fixtures.json_Unmarshal
         ("{" ++ fixtures.member "EMAIL" "a@b.co" ++ "}") new_User) = mkUser "a@b.co" "" "" /\
  snd (fixtures.json_Unmarshal
         ("{" ++ fixtures.member "email" (String "009" "a@b.co") ++ "}") new_User) <> None.
Proof. repeat split; vm_compute; congruence. Qed.
